(** * AutoFinanceCalculator: the categorisation and aggregation pipeline

    A shallow embedding of [main.py] (and of the functions it shares, line
    for line, with [backup.py]): the two persisted stores, the transaction
    loader, the keyword categoriser, the learning loop and the aggregator,
    followed by the properties of the specification that concern them.

    Conventions.
    - A Python [str] is a [string]; its characters are read as the code
      points below 256.
    - A Python [dict] is an association list in insertion order.
    - A Python [float] is a binary64 number, [PrimFloat.float].
    - A data frame is the list of its rows, each paired with its index label.
    - An exception is a value of [exn]; code that may raise returns a
      [result]. *)

From Stdlib Require Import Floats ZArith List String Ascii Bool Lia Permutation QArith.
From Stdlib Require Import DecimalString Sorted.
Import ListNotations.
Set Warnings "-inexact-float".

Close Scope Q_scope.
Local Open Scope string_scope.
Local Open Scope list_scope.

(* ================================================================== *)
(** * Definitions *)
(* ================================================================== *)

(** ** Python strings *)

Module Str.

(** [c.isspace()] on the code points below 256. *)
Definition isspace (c : ascii) : bool :=
  let n := N_of_ascii c in
  ((9 <=? n) && (n <=? 13) || (28 <=? n) && (n <=? 32)
   || (n =? 133) || (n =? 160))%N.

(** [c.lower()] on the code points below 256: the letters A-Z and the
    accented capitals U+00C0-U+00DE (the sign U+00D7 apart) move up by 32. *)
Definition lower_char (c : ascii) : ascii :=
  let n := N_of_ascii c in
  if ((65 <=? n) && (n <=? 90)
      || (192 <=? n) && (n <=? 222) && negb (n =? 215))%N
  then ascii_of_N (n + 32) else c.

(** [s.lower()] *)
Fixpoint lower (s : string) : string :=
  match s with
  | EmptyString => EmptyString
  | String c s' => String (lower_char c) (lower s')
  end.

(** [s.lstrip()] *)
Fixpoint lstrip (s : string) : string :=
  match s with
  | EmptyString => EmptyString
  | String c s' => if isspace c then lstrip s' else s
  end.

(** [s.rstrip()] *)
Fixpoint rstrip (s : string) : string :=
  match s with
  | EmptyString => EmptyString
  | String c s' =>
      match rstrip s' with
      | EmptyString => if isspace c then EmptyString else String c EmptyString
      | r => String c r
      end
  end.

(** [s.strip()] *)
Definition strip (s : string) : string := rstrip (lstrip s).

(** [s.replace] of every comma by nothing (line 62). *)
Fixpoint remove_commas (s : string) : string :=
  match s with
  | EmptyString => EmptyString
  | String c s' =>
      if Ascii.eqb c "," then remove_commas s' else String c (remove_commas s')
  end.

(** Truth value of a string: [bool(s)]. *)
Definition truthy (s : string) : bool :=
  match s with EmptyString => false | _ => true end.

(** [x in xs] for a list of strings. *)
Definition mem (x : string) (xs : list string) : bool :=
  existsb (String.eqb x) xs.

End Str.

(** ** Python dictionaries, in insertion order *)

Module Dict.

Definition dict (V : Type) : Type := list (string * V).

Section Ops.
Context {V : Type}.

(** [d.get(k)] *)
Fixpoint get (k : string) (d : dict V) : option V :=
  match d with
  | [] => None
  | (k', v) :: d' => if String.eqb k k' then Some v else get k d'
  end.

(** [k in d] *)
Definition contains (k : string) (d : dict V) : bool :=
  match get k d with Some _ => true | None => false end.

(** [d.get(k, default)] *)
Definition get_default (k : string) (default : V) (d : dict V) : V :=
  match get k d with Some v => v | None => default end.

(** [d[k] = v]: an existing key keeps its place, a new key goes last. *)
Fixpoint set (k : string) (v : V) (d : dict V) : dict V :=
  match d with
  | [] => [(k, v)]
  | (k', v') :: d' =>
      if String.eqb k k' then (k', v) :: d' else (k', v') :: set k v d'
  end.

(** [d.setdefault(k, v)] (its result is not used by the program). *)
Definition setdefault (k : string) (v : V) (d : dict V) : dict V :=
  if contains k d then d else set k v d.

(** [d.keys()] and [d.items()] *)
Definition keys (d : dict V) : list string := map fst d.
Definition items (d : dict V) : list (string * V) := d.

End Ops.

End Dict.
Import Dict.

(** ** Exceptions *)

Inductive exn : Type :=
| KeyError (key : string)
| AttributeError (msg : string)
| ValueError (msg : string)
| OtherError (msg : string).

(** [str(e)] *)
Definition exn_str (e : exn) : string :=
  match e with
  | KeyError k => "'" ++ k ++ "'"
  | AttributeError m | ValueError m | OtherError m => m
  end.

Inductive result (A : Type) : Type :=
| Ok (a : A)
| Raise (e : exn).
Arguments Ok {A} a.
Arguments Raise {A} e.

Definition bind {A B : Type} (m : result A) (k : A -> result B) : result B :=
  match m with Ok a => k a | Raise e => Raise e end.

Declare Scope result_scope.
Delimit Scope result_scope with result.
Notation "'do' x <- m ; k" := (bind m (fun x => k))
  (at level 10, x name, m at level 100, k at level 200) : result_scope.
Local Open Scope result_scope.

(** [[f(x) for x in xs]] with a fallible [f]: the first exception wins. *)
Fixpoint map_result {A B : Type} (f : A -> result B) (xs : list A)
  : result (list B) :=
  match xs with
  | [] => Ok []
  | x :: xs' => do y <- f x; do ys <- map_result f xs'; Ok (y :: ys)
  end.

(** ** Rows and frames *)

(** A calendar date, as [pd.to_datetime] yields it. *)
Record datetime : Type := { year : nat; month : nat; day : nat }.

Record Row : Type := {
  Date : datetime;
  Details : string;
  Amount : float;
  DebitCredit : string;
  Category : string
}.

Definition set_Category (c : string) (r : Row) : Row :=
  {| Date := Date r; Details := Details r; Amount := Amount r;
     DebitCredit := DebitCredit r; Category := c |}.

(** A frame: rows in order, each with its index label. *)
Definition DataFrame : Type := list (nat * Row).

(** The index [0, 1, ..., n-1] that [pd.read_csv] gives a fresh frame. *)
Definition RangeIndex (rows : list Row) : DataFrame :=
  combine (seq 0 (List.length rows)) rows.

(** [df["Category"] = c] *)
Definition assign_Category (c : string) (df : DataFrame) : DataFrame :=
  map (fun ir => (fst ir, set_Category c (snd ir))) df.

(** [df.at[idx, "Category"] = c] *)
Definition at_set_Category (idx : nat) (c : string) (df : DataFrame) : DataFrame :=
  map (fun ir => if Nat.eqb (fst ir) idx then (fst ir, set_Category c (snd ir)) else ir) df.

(** [df.at[idx, "Category"]]; a missing label raises [KeyError]. *)
Fixpoint at_Category (idx : nat) (df : DataFrame) : option string :=
  match df with
  | [] => None
  | (i, r) :: df' => if Nat.eqb i idx then Some (Category r) else at_Category idx df'
  end.

(** ** The stores *)

Definition Categories : Type := dict (list string).
Definition Budgets : Type := dict float.

Definition Uncategorized : string := "Uncategorized".

(** The default of lines 12-15: [{"Uncategorized": []}]. *)
Definition default_categories : Categories := [(Uncategorized, [])].

(** ** The categoriser ([categorize_transactions], main.py 42-55,
       backup.py 25-38) *)

(** [[keyword.lower().strip() for keyword in keywords]] *)
Definition lowered_keywords (keywords : list string) : list string :=
  map (fun keyword => Str.strip (Str.lower keyword)) keywords.

(** The test of line 46: [category == "Uncategorized" or not keywords]. *)
Definition skipped (category : string) (keywords : list string) : bool :=
  String.eqb category Uncategorized
  || match keywords with [] => true | _ => false end.

(** The test of lines 51-52 on one row. *)
Definition row_matches (lowered : list string) (row : Row) : bool :=
  Str.mem (Str.lower (Details row)) lowered.

(** The inner loop, lines 50-53: the rows are visited in order and the frame
    is updated in place through the row's label. *)
Definition categorize_with (category : string) (lowered : list string)
    (df : DataFrame) : DataFrame :=
  fold_left
    (fun d ir => if row_matches lowered (snd ir)
                 then at_set_Category (fst ir) category d else d)
    df df.

(** The outer loop, lines 45-53. *)
Definition categorize_loop (categories : Categories) (df : DataFrame) : DataFrame :=
  fold_left
    (fun d ck =>
       if skipped (fst ck) (snd ck) then d
       else categorize_with (fst ck) (lowered_keywords (snd ck)) d)
    (items categories) df.

Definition categorize_transactions (categories : Categories) (df : DataFrame)
  : DataFrame :=
  categorize_loop categories (assign_Category Uncategorized df).

(** What one row ends up with, written row-wise: every category that is not
    skipped and whose lowered keywords hold the lowered detail overwrites the
    current value, in iteration order. *)
Definition assigned (categories : Categories) (current details : string) : string :=
  fold_left
    (fun cur ck =>
       if skipped (fst ck) (snd ck) then cur
       else if Str.mem (Str.lower details) (lowered_keywords (snd ck))
            then fst ck else cur)
    categories current.

(** The row-wise reading of the two nested loops on one labelled row. *)
Definition recategorized (cats : Categories) (ir : nat * Row) : nat * Row :=
  (fst ir,
   set_Category (assigned cats (Category (snd ir)) (Details (snd ir))) (snd ir)).

(** The row-wise reading of [categorize_transactions]. *)
Definition categorized (cats : Categories) (ir : nat * Row) : nat * Row :=
  (fst ir, set_Category (assigned cats Uncategorized (Details (snd ir))) (snd ir)).

(** An entry of the store takes part in the scan and matches the detail. *)
Definition entry_matches (details : string) (ck : string * list string) : bool :=
  negb (skipped (fst ck) (snd ck))
  && Str.mem (Str.lower details) (lowered_keywords (snd ck)).

(** ** Numbers *)

Module Num.
Local Open Scope float_scope.

(** Round half to even of [n / d], for [d > 0]. *)
Definition half_even_div (n d : Z) : Z :=
  let q := (n / d)%Z in
  let r := (n mod d)%Z in
  match (2 * r ?= d)%Z with
  | Lt => q
  | Gt => (q + 1)%Z
  | Eq => if Z.even q then q else (q + 1)%Z
  end.

(** The binary64 number nearest to [n / d], for positive [n] and [d]. *)
Definition nearest_quotient (negative : bool) (n d : positive) : float :=
  SF2Prim (SFdiv prec emax (S754_finite negative n 0) (S754_finite false d 0)).

(** The built-in [round(x, 1)] of a Python float: the exact value of [x] is
    rounded to one decimal, half to even, and the binary64 number nearest to
    that decimal is returned. *)
Definition py_round1 (x : float) : float :=
  match Prim2SF x with
  | S754_finite s m (Zneg p) =>
      match half_even_div (10 * Zpos m) (2 ^ Zpos p) with
      | Zpos n => nearest_quotient s n 10
      | _ => SF2Prim (S754_zero s)
      end
  | _ => x
  end.

(** [numpy.rint]: the nearest integer, half to even. *)
Definition rint (y : float) : float :=
  let two52 := 4503599627370496 in
  if abs y <? two52
  then if y <? 0 then (y - two52) + two52 else (y + two52) - two52
  else y.

(** [round(x, 1)] of a [numpy.float64]: scale, [rint], scale back. *)
Definition np_round1 (x : float) : float := rint (x * 10) / 10.

(** A sum that skips NaN, added up from the left. *)
Definition sum_left (xs : list float) : float :=
  fold_left (fun acc x => if is_nan x then acc else acc + x) xs 0.

(** The same sum with Kahan's compensation, as pandas' grouped sum has it. *)
Definition sum_kahan (xs : list float) : float :=
  fst (fold_left
         (fun sc x =>
            if is_nan x then sc
            else
              let y := x - snd sc in
              let t := fst sc + y in
              let c := (t - fst sc) - y in
              (t, if is_nan c then 0 else c))
         xs (0, 0)).

(** The exact value of a finite number (0 for an infinity or a NaN). *)
Definition exact (x : float) : Q :=
  match Prim2SF x with
  | S754_finite s m e =>
      ((if s then Zneg m else Zpos m) # 1) * Qpower (2 # 1) e
  | _ => 0%Q
  end.

(** The sum of a list of rationals. *)
Definition Qsum (qs : list Q) : Q := fold_right Qplus 0%Q qs.

End Num.

(** ** What the program takes from its libraries *)

(** A cell of the [Amount] column as [pd.read_csv] delivers it: text in a
    column of dtype [object], a number in a numeric column or for a missing
    field. *)
Inductive cell : Type :=
| Text (s : string)
| Number (x : float).

(** A record of the table read from the file. [Date], [Details] and
    [Debit/Credit] are text columns; a table always has the four columns. *)
Record RawRow : Type := {
  raw_Date : string;
  raw_Details : string;
  raw_Amount : cell;
  raw_DebitCredit : string
}.
Definition RawFrame : Type := list RawRow.

(** The routines of pandas, numpy and Python that lines 58-67 and 155-200
    call. Their rounding and parsing are the libraries' business; the
    program is written against this interface, and the instances below give
    the routines on the inputs of the examples. *)
Class Library : Type := {
  File : Type;
  (** [pd.read_csv(file)] *)
  read_csv : File -> result RawFrame;
  (** one element of [.astype(float)] on a text column *)
  to_float : string -> result float;
  (** one element of [pd.to_datetime(..., format="%d %b %Y")] *)
  to_datetime : string -> result datetime;
  (** [.sum()] of a group of [groupby] *)
  group_sum : list float -> float;
  (** [Series.sum()] *)
  series_sum : list float -> float;
  (** [round(x, 1)] *)
  round1 : float -> float
}.

(** ** Widgets drawn on the page, in the order of the calls *)

(** The columns shown in the expense grid (line 130). *)
Record Expense : Type := {
  eDate : datetime;
  eDetails : string;
  eAmount : float;
  eCategory : string
}.

(** A row of [category_totals] (lines 156-167). *)
Record Totals : Type := {
  tCategory : string;
  tAmount : float;
  tBudget : float;
  tRemaining : float;
  tPercentUsed : float
}.

Inductive Widget : Type :=
| st_title (text : string)
| st_file_uploader (label : string)
| st_error (msg : string)
| st_tabs (labels : list string)
| st_text_input (label : string)
| st_button (label : string)
| st_subheader (text : string)
| st_number_input (label : string) (value : float)
| st_success (msg : string)
| st_data_editor (grid : list (nat * Expense))
| st_dataframe (table : list Totals)
| st_plotly_chart (kind : string) (table : list Totals)
| st_metric (label : string) (value : float)
| st_write (df : DataFrame).

(** ** State *)

(** The two documents on disk; [None] when the file does not exist. *)
Record Disk : Type := {
  category_file : option Categories;
  budget_file : option Budgets
}.

(** [st.session_state] between two runs of the script. *)
Record Session : Type := {
  ss_categories : option Categories;
  ss_budgets : option Budgets
}.

Record World : Type := { session : Session; disk : Disk }.

(** The stores while the script runs, after lines 12-29. *)
Record State : Type := {
  categories : Categories;
  budgets : Budgets;
  files : Disk
}.

(** A new browser session and no document on disk. *)
Definition fresh_world : World :=
  {| session := {| ss_categories := None; ss_budgets := None |};
     disk := {| category_file := None; budget_file := None |} |}.

(** Lines 12-29: defaults, then the documents, then a budget for every
    category. *)
Definition startup (w : World) : State :=
  let cats0 := match ss_categories (session w) with
               | Some c => c | None => default_categories end in
  let buds0 := match ss_budgets (session w) with
               | Some b => b | None => [] end in
  let cats1 := match category_file (disk w) with
               | Some c => c | None => cats0 end in
  let buds1 := match budget_file (disk w) with
               | Some b => b | None => buds0 end in
  {| categories := cats1;
     budgets := fold_left (fun b cat => setdefault cat 0%float b) (keys cats1) buds1;
     files := disk w |}.

(** What a run leaves behind. *)
Definition world_of (st : State) : World :=
  {| session := {| ss_categories := Some (categories st);
                   ss_budgets := Some (budgets st) |};
     disk := files st |}.

(** [save_categories()], lines 32-34. *)
Definition save_categories (st : State) : State :=
  {| categories := categories st; budgets := budgets st;
     files := {| category_file := Some (categories st);
                 budget_file := budget_file (files st) |} |}.

(** [save_budgets()], lines 37-39. *)
Definition save_budgets (st : State) : State :=
  {| categories := categories st; budgets := budgets st;
     files := {| category_file := category_file (files st);
                 budget_file := Some (budgets st) |} |}.

Definition with_categories (c : Categories) (st : State) : State :=
  {| categories := c; budgets := budgets st; files := files st |}.

Definition with_budgets (b : Budgets) (st : State) : State :=
  {| categories := categories st; budgets := b; files := files st |}.

(** ** [add_keyword_to_category], main.py 70-76, backup.py 52-58 *)

Definition add_keyword_to_category (category keyword : string) (st : State)
  : result bool * State :=
  let keyword := Str.strip keyword in
  if Str.truthy keyword then
    match get category (categories st) with
    | None => (Raise (KeyError category), st)
    | Some keywords =>
        if negb (Str.mem keyword keywords) then
          (Ok true,
           save_categories
             (with_categories (set category (keywords ++ [keyword]) (categories st)) st))
        else (Ok false, st)
    end
  else (Ok false, st).

(** ** The add-category handler, main.py 99-106

    [add_button] and [new_category] are what the button and the text input
    return; the result says whether [st.rerun()] was reached. *)
Definition add_category (add_button : bool) (new_category : string) (st : State)
  : State * bool :=
  if add_button && Str.truthy new_category then
    if negb (contains new_category (categories st)) then
      let st1 := with_categories (set new_category [] (categories st)) st in
      let st2 := with_budgets (setdefault new_category 0%float (budgets st1)) st1 in
      (save_budgets (save_categories st2), true)
    else (st, false)
  else (st, false).

(** ** The loader, the grid, the aggregator and [main] *)

Section Program.
Context {L : Library}.
Local Open Scope float_scope.

(** *** [load_transactions], main.py 58-67, backup.py 40-50 *)

Definition is_Number (c : cell) : bool :=
  match c with Number _ => true | Text _ => false end.

(** The [.str] accessor: refused on a column that holds numbers only. *)
Definition str_accessor (column : list cell) : result unit :=
  match column with
  | [] => Ok tt
  | _ => if forallb is_Number column
         then Raise (AttributeError "Can only use .str accessor with string values!")
         else Ok tt
  end.

(** One element of [.str.replace] of line 62: the commas go; a cell that is
    not text becomes NaN. *)
Definition str_replace (c : cell) : cell :=
  match c with
  | Text s => Text (Str.remove_commas s)
  | Number _ => Number nan
  end.

(** One element of [.astype(float)]. *)
Definition astype_float (c : cell) : result float :=
  match c with
  | Text s => to_float s
  | Number x => Ok x
  end.

(** Line 62. *)
Definition coerce_amounts (raw : RawFrame) : result (list float) :=
  let column := map raw_Amount raw in
  do _ <- str_accessor column;
  map_result astype_float (map str_replace column).

(** Line 63. *)
Definition coerce_dates (raw : RawFrame) : result (list datetime) :=
  map_result to_datetime (map raw_Date raw).

(** The frame after lines 60-63. It has no [Category] column yet: the
    field is written by line 43 before anything reads it. *)
Fixpoint make_rows (raw : RawFrame) (amounts : list float)
    (dates : list datetime) : list Row :=
  match raw, amounts, dates with
  | r :: raw', a :: amounts', d :: dates' =>
      {| Date := d; Details := raw_Details r; Amount := a;
         DebitCredit := raw_DebitCredit r; Category := EmptyString |}
      :: make_rows raw' amounts' dates'
  | _, _, _ => []
  end.

(** The body of the [try], lines 60-64. *)
Definition load_body (cats : Categories) (file : File) : result DataFrame :=
  do raw <- read_csv file;
  do amounts <- coerce_amounts raw;
  do dates <- coerce_dates raw;
  Ok (categorize_transactions cats (RangeIndex (make_rows raw amounts dates))).

(** [load_transactions(file)]: the frame, or [None] with the error shown. *)
Definition load_transactions (cats : Categories) (file : File)
  : option DataFrame * list Widget :=
  match load_body cats file with
  | Ok df => (Some df, [])
  | Raise e => (None, [st_error ("Error loading file: " ++ exn_str e)])
  end.

(** *** The budget inputs, lines 111-121 *)

(** One turn of the loop of lines 112-121. *)
Definition budget_input (number_input : string -> float -> float)
    (so : State * list Widget) (cat : string) : State * list Widget :=
  let current_value := get_default cat 0 (budgets (fst so)) in
  (with_budgets (set cat (number_input cat current_value) (budgets (fst so)))
                (fst so),
   snd so ++ [st_number_input (cat ++ " budget") current_value]).

Definition budget_inputs (number_input : string -> float -> float) (st : State)
  : State * list Widget :=
  fold_left (budget_input number_input) (keys (categories st)) (st, []).

(** *** The expense grid and the learning loop, lines 129-153 *)

(** [debits_df[["Date", "Details", "Amount", "Category"]]] *)
Definition expense_grid (df : DataFrame) : list (nat * Expense) :=
  map (fun ir => (fst ir,
                  {| eDate := Date (snd ir); eDetails := Details (snd ir);
                     eAmount := Amount (snd ir); eCategory := Category (snd ir) |}))
      df.

Definition label_str (idx : nat) : string :=
  NilEmpty.string_of_uint (Nat.to_uint idx).

(** Lines 146-153. An exception leaves the loop with what was done so far. *)
Fixpoint apply_changes (edited_df : list (nat * Expense)) (st : State)
    (debits_df : DataFrame) : option exn * State * DataFrame :=
  match edited_df with
  | [] => (None, st, debits_df)
  | (idx, row) :: rest =>
      let new_category_val := eCategory row in
      match at_Category idx debits_df with
      | None => (Some (KeyError (label_str idx)), st, debits_df)
      | Some old =>
          if String.eqb new_category_val old then apply_changes rest st debits_df
          else
            let details := eDetails row in
            let debits_df' := at_set_Category idx new_category_val debits_df in
            match add_keyword_to_category new_category_val details st with
            | (Raise e, st') => (Some e, st', debits_df')
            | (Ok _, st') => apply_changes rest st' debits_df'
            end
      end
  end.

(** *** The aggregator, lines 155-167 *)

(** Groups in ascending key order, the amounts of a group in row order. *)
Fixpoint group_insert (k : string) (x : float)
    (groups : list (string * list float)) : list (string * list float) :=
  match groups with
  | [] => [(k, [x])]
  | (k', xs) :: groups' =>
      match String.compare k k' with
      | Eq => (k', xs ++ [x]) :: groups'
      | Lt => (k, [x]) :: groups
      | Gt => (k', xs) :: group_insert k x groups'
      end
  end.

(** [df.groupby("Category")["Amount"]] *)
Definition groupby_Category (df : DataFrame) : list (string * list float) :=
  fold_left (fun g ir => group_insert (Category (snd ir)) (Amount (snd ir)) g) df [].

(** [.sum().reset_index()] *)
Definition grouped_sums (df : DataFrame) : list (string * float) :=
  map (fun g => (fst g, group_sum (snd g))) (groupby_Category df).

Fixpoint insert_desc (x : string * float) (l : list (string * float))
  : list (string * float) :=
  match l with
  | [] => [x]
  | y :: l' => if snd y <? snd x then x :: l else y :: insert_desc x l'
  end.

(** [.sort_values(by="Amount", ascending=False)]; equal amounts keep their
    order. *)
Definition sort_values_desc (l : list (string * float)) : list (string * float) :=
  fold_left (fun acc x => insert_desc x acc) l [].

(** The lambda of line 165. *)
Definition percent_used (amount budget : float) : float :=
  if 0 <? budget then round1 ((amount / budget) * 100) else 0.

(** Lines 160-167 on one row. *)
Definition totals_row (b : Budgets) (ca : string * float) : Totals :=
  let budget := get_default (fst ca) 0 b in
  {| tCategory := fst ca; tAmount := snd ca; tBudget := budget;
     tRemaining := budget - snd ca;
     tPercentUsed := percent_used (snd ca) budget |}.

Definition category_totals (b : Budgets) (debits_df : DataFrame) : list Totals :=
  map (totals_row b) (sort_values_desc (grouped_sums debits_df)).

(** Line 199. *)
Definition total_payments (credits_df : DataFrame) : float :=
  series_sum (map (fun ir => Amount (snd ir)) credits_df).

(** *** [main], lines 79-201 *)

(** What the user did on the page. *)
Record UI : Type := {
  uploaded_file : option File;
  new_category : string;
  add_button : bool;
  number_input : string -> float -> float;
  save_budgets_button : bool;
  (** the row with a given label as the user leaves it in the grid; the
      grid has a fixed set of rows *)
  data_editor : nat -> Expense -> Expense;
  apply_button : bool
}.

Inductive Outcome : Type :=
| Finished
| Rerun
| Uncaught (e : exn).

Definition polarity (p : string) (df : DataFrame) : DataFrame :=
  filter (fun ir => String.eqb (DebitCredit (snd ir)) p) df.

Definition main (ui : UI) (st : State) : Outcome * State * list Widget :=
  let out0 := [st_title "Simple Finance Dashboard";
               st_file_uploader "Upload your transaction CSV file"] in
  match uploaded_file ui with
  | None => (Finished, st, out0)
  | Some file =>
      match load_transactions (categories st) file with
      | (None, errors) => (Finished, st, out0 ++ errors)
      | (Some df, _) =>
          let debits_df := polarity "Debit" df in
          let credits_df := polarity "Credit" df in
          let out1 := out0 ++ [st_tabs ["Expenses (Debits)"; "Payments (Credits)"];
                               st_text_input "New Category Name";
                               st_button "Add Category"] in
          match add_category (add_button ui) (new_category ui) st with
          | (st1, true) => (Rerun, st1, out1)
          | (st1, false) =>
              let (st2, inputs) := budget_inputs (number_input ui) st1 in
              let out2 := out1 ++ [st_subheader "Category Budgets"] ++ inputs
                               ++ [st_button "Save Budgets"] in
              let (st3, out3) :=
                if save_budgets_button ui
                then (save_budgets st2,
                      out2 ++ [st_success "Budgets saved to budgets.json"])
                else (st2, out2) in
              let grid := expense_grid debits_df in
              let edited_df :=
                map (fun ie => (fst ie, data_editor ui (fst ie) (snd ie))) grid in
              let out4 := out3 ++ [st_subheader "Your Expenses";
                                   st_data_editor grid;
                                   st_button "Apply Changes"] in
              match (if apply_button ui then apply_changes edited_df st3 debits_df
                     else (None, st3, debits_df)) with
              | (Some e, st4, _) => (Uncaught e, st4, out4)
              | (None, st4, debits_df') =>
                  let table := category_totals (budgets st4) debits_df' in
                  (Finished, st4,
                   out4 ++ [st_subheader "Expense Summary";
                            st_dataframe table;
                            st_plotly_chart "pie" table;
                            st_plotly_chart "bar" table;
                            st_subheader "Payment Summary";
                            st_metric "Total Payments" (total_payments credits_df);
                            st_write credits_df])
              end
          end
      end
  end.

(** One run of the script: lines 12-29, then [main()]. *)
Definition run (ui : UI) (w : World) : Outcome * World * list Widget :=
  let '(o, st, out) := main ui (startup w) in (o, world_of st, out).

(** The stores after a series of runs. *)
Definition runs (uis : list UI) (w : World) : World :=
  fold_left (fun w ui => snd (fst (run ui w))) uis w.

End Program.

(** ** The add-category handler of backup.py, lines 79-83

    The older script has no Budget Store: its state is the Category Store
    and the category document. *)
Module Backup.

Record State : Type := {
  categories : Categories;
  category_file : option Categories
}.

Definition add_category (add_button : bool) (new_category : string) (st : State)
  : State * bool :=
  if add_button && Str.truthy new_category then
    if negb (contains new_category (categories st)) then
      let cats := set new_category [] (categories st) in
      ({| categories := cats; category_file := Some cats |}, true)
    else (st, false)
  else (st, false).

End Backup.

(** ** The library routines on plain inputs

    Enough of pandas and Python to run the program on files whose fields are
    unsigned decimal numerals, dates and other text. *)
Module Plain.

(** A record of a CSV file with the header
    [Date,Details,Amount,Debit/Credit]. *)
Record CsvRecord : Type := {
  f_Date : string;
  f_Details : string;
  f_Amount : string;
  f_DebitCredit : string
}.
Definition CsvFile : Type := list CsvRecord.

Definition digit (c : ascii) : option N :=
  let n := N_of_ascii c in
  if ((48 <=? n) && (n <=? 57))%N then Some (n - 48)%N else None.

(** The digits of [s] read as a number after [acc]; [None] on any other
    character. *)
Fixpoint digits (acc : N) (s : string) : option N :=
  match s with
  | EmptyString => Some acc
  | String c s' =>
      match digit c with
      | Some d => digits (10 * acc + d)%N s'
      | None => None
      end
  end.

Fixpoint pow10 (k : nat) : positive :=
  match k with
  | O => 1%positive
  | S k' => (10 * pow10 k')%positive
  end.

(** The text before and after the first full stop. *)
Fixpoint split_point (s : string) : string * option string :=
  match s with
  | EmptyString => (EmptyString, None)
  | String c s' =>
      if Ascii.eqb c "." then (EmptyString, Some s')
      else let (a, b) := split_point s' in (String c a, b)
  end.

(** An unsigned decimal numeral [ddd], [ddd.ddd], [ddd.] or [.ddd], to the
    nearest binary64 number. *)
Definition decimal (s : string) : option float :=
  let (int_part, frac) := split_point s in
  let frac_part := match frac with Some f => f | None => EmptyString end in
  match int_part, frac_part with
  | EmptyString, EmptyString => None
  | _, _ =>
      match digits 0 int_part with
      | None => None
      | Some i =>
          match digits i frac_part with
          | None => None
          | Some N0 => Some 0%float
          | Some (Npos n) =>
              Some (Num.nearest_quotient false n (pow10 (String.length frac_part)))
          end
      end
  end.

Definition float_of_str (s : string) : result float :=
  match decimal s with
  | Some x => Ok x
  | None => Raise (ValueError ("could not convert string to float: '" ++ s ++ "'"))
  end.

Definition month_names : list string :=
  ["jan"; "feb"; "mar"; "apr"; "may"; "jun";
   "jul"; "aug"; "sep"; "oct"; "nov"; "dec"].

Fixpoint index_of (x : string) (xs : list string) (i : nat) : option nat :=
  match xs with
  | [] => None
  | y :: ys => if String.eqb x y then Some i else index_of x ys (S i)
  end.

Definition leap (y : nat) : bool :=
  ((y mod 4 =? 0) && negb (y mod 100 =? 0) || (y mod 400 =? 0))%nat.

Definition days_in_month (y m : nat) : nat :=
  match m with
  | 2 => if leap y then 29 else 28
  | 4 | 6 | 9 | 11 => 30
  | _ => 31
  end.

(** The text before and after the first space. *)
Fixpoint split_space (s : string) : string * option string :=
  match s with
  | EmptyString => (EmptyString, None)
  | String c s' =>
      if Ascii.eqb c " " then (EmptyString, Some s')
      else let (a, b) := split_space s' in (String c a, b)
  end.

(** A date written [DD Mon YYYY]. *)
Definition date (s : string) : option datetime :=
  match split_space s with
  | (d, Some rest) =>
      match split_space rest with
      | (m, Some y) =>
          match digits 0 d, index_of (Str.lower m) month_names 1, digits 0 y with
          | Some dn, Some mn, Some yn =>
              let dn := N.to_nat dn in
              let yn := N.to_nat yn in
              if ((1 <=? String.length d) && (String.length d <=? 2)
                  && (String.length y =? 4)
                  && (1 <=? dn) && (dn <=? days_in_month yn mn))%nat
              then Some {| year := yn; month := mn; day := dn |}
              else None
          | _, _, _ => None
          end
      | _ => None
      end
  | _ => None
  end.

Definition datetime_of_str (s : string) : result datetime :=
  match date s with
  | Some d => Ok d
  | None => Raise (ValueError ("time data '" ++ s
                               ++ "' does not match format '%d %b %Y'"))
  end.

(** An [Amount] field is a number to the reader if it is empty (a missing
    value, NaN) or a numeral. *)
Definition numeric_field (s : string) : option float :=
  match s with
  | EmptyString => Some nan
  | _ => decimal s
  end.

Fixpoint all_numeric (fields : list string) : option (list float) :=
  match fields with
  | [] => Some []
  | f :: fields' =>
      match numeric_field f, all_numeric fields' with
      | Some x, Some xs => Some (x :: xs)
      | _, _ => None
      end
  end.

(** The dtype inference of [pd.read_csv] on the [Amount] column: a column
    whose fields are all numbers is a numeric column; otherwise it holds
    the fields as text, NaN for an empty one. *)
Definition infer_Amount (fields : list string) : list cell :=
  match all_numeric fields with
  | Some xs => map Number xs
  | None => map (fun f => match f with
                          | EmptyString => Number nan
                          | _ => Text f
                          end) fields
  end.

Definition read_table (file : CsvFile) : result RawFrame :=
  Ok (map (fun rc => {| raw_Date := f_Date (fst rc);
                        raw_Details := f_Details (fst rc);
                        raw_Amount := snd rc;
                        raw_DebitCredit := f_DebitCredit (fst rc) |})
          (combine file (infer_Amount (map f_Amount file)))).

(** Python scalars: the built-in [round], sums from the left. *)
Definition python : Library :=
  {| File := CsvFile; read_csv := read_table; to_float := float_of_str;
     to_datetime := datetime_of_str; group_sum := Num.sum_left;
     series_sum := Num.sum_left; round1 := Num.py_round1 |}.

(** numpy scalars: [numpy]'s rounding, compensated sums per group. *)
Definition numpy : Library :=
  {| File := CsvFile; read_csv := read_table; to_float := float_of_str;
     to_datetime := datetime_of_str; group_sum := Num.sum_kahan;
     series_sum := Num.sum_left; round1 := Num.np_round1 |}.

End Plain.

(** ** Sample files, stores and sessions *)

Module Sample.

Definition record (date details amount polarity : string) : Plain.CsvRecord :=
  {| Plain.f_Date := date; Plain.f_Details := details;
     Plain.f_Amount := amount; Plain.f_DebitCredit := polarity |}.

(** The file of the end-to-end example of the specification. *)
Definition coffee_and_salary : Plain.CsvFile :=
  [record "01 Jan 2024" "Coffee Shop" "4.50" "Debit";
   record "02 Jan 2024" "Coffee Shop" "3.20" "Debit";
   record "03 Jan 2024" "Salary" "2000.00" "Credit"].

(** The same transactions as a bank writes them, with a thousands
    separator in the salary. *)
Definition coffee_and_salary_with_separator : Plain.CsvFile :=
  [record "01 Jan 2024" "Coffee Shop" "4.50" "Debit";
   record "02 Jan 2024" "Coffee Shop" "3.20" "Debit";
   record "03 Jan 2024" "Salary" "2,000.00" "Credit"].

(** One expense, written with a separator. *)
Definition one_coffee : Plain.CsvFile :=
  [record "01 Jan 2024" "Coffee Shop" "1,004.50" "Debit"].

(** The documents of the example: "Food" with the keyword "coffee shop"
    and a budget of 10.0. *)
Definition food_world : World :=
  {| session := {| ss_categories := None; ss_budgets := None |};
     disk := {| category_file := Some [(Uncategorized, []);
                                       ("Food", ["coffee shop"])];
                budget_file := Some [("Food", 10%float)] |} |}.

Section Sessions.
Context (L : Library).

(** The user uploads [file] and touches nothing else. *)
Definition upload (file : @File L) : @UI L :=
  {| uploaded_file := Some file; new_category := EmptyString;
     add_button := false; number_input := fun _ shown => shown;
     save_budgets_button := false; data_editor := fun _ e => e;
     apply_button := false |}.

(** The user types a name and presses "Add Category". *)
Definition add (file : @File L) (name : string) : @UI L :=
  {| uploaded_file := Some file; new_category := name;
     add_button := true; number_input := fun _ shown => shown;
     save_budgets_button := false; data_editor := fun _ e => e;
     apply_button := false |}.

(** The user sets every row of the grid to [category] and presses
    "Apply Changes". *)
Definition move_all (file : @File L) (category : string) : @UI L :=
  {| uploaded_file := Some file; new_category := EmptyString;
     add_button := false; number_input := fun _ shown => shown;
     save_budgets_button := false;
     data_editor := fun _ e =>
                      {| eDate := eDate e; eDetails := eDetails e;
                         eAmount := eAmount e; eCategory := category |};
     apply_button := true |}.

End Sessions.

(** A debit of [amount] in [category]. *)
Definition debit (category : string) (amount : float) : Row :=
  {| Date := {| year := 2024; month := 1; day := 1 |};
     Details := EmptyString; Amount := amount;
     DebitCredit := "Debit"; Category := category |}.

End Sample.

(** More sessions. *)
Module Session.

(** The user types [value] into every budget input and presses
    "Save Budgets". *)
Definition save_all (L : Library) (file : @File L) (value : float) : @UI L :=
  {| uploaded_file := Some file; new_category := EmptyString;
     add_button := false; number_input := fun _ _ => value;
     save_budgets_button := true; data_editor := fun _ e => e;
     apply_button := false |}.

(** The user presses "Apply Changes" without having edited the grid. *)
Definition apply_nothing (L : Library) (file : @File L) : @UI L :=
  {| uploaded_file := Some file; new_category := EmptyString;
     add_button := false; number_input := fun _ shown => shown;
     save_budgets_button := false; data_editor := fun _ e => e;
     apply_button := true |}.

(** A debit for coffee, not yet in a category. *)
Definition coffee : Row :=
  {| Date := {| year := 2024; month := 1; day := 1 |};
     Details := "Coffee Shop"; Amount := 4.5%float;
     DebitCredit := "Debit"; Category := Uncategorized |}.

(** The edit that sets the category of every row of the grid. *)
Definition to_category (category : string) (idx : nat) (e : Expense) : Expense :=
  {| eDate := eDate e; eDetails := eDetails e; eAmount := eAmount e;
     eCategory := category |}.

(** A store with an empty category "Food". *)
Definition empty_food : State :=
  with_categories [(Uncategorized, []); ("Food", [])] (startup fresh_world).

End Session.

(** ** Vocabulary of the properties *)

(** The order of the group keys. *)
Definition precedes (a b : string) : Prop := String.compare a b = Lt.

(** The amounts of a frame, in row order. *)
Definition amounts (df : DataFrame) : list float :=
  map (fun ir => Amount (snd ir)) df.

(** The reserved category is present and has no keyword. *)
Definition default_empty (cats : Categories) : Prop :=
  get Uncategorized cats = Some [].

(** The same in what the session and the category document hold. *)
Definition default_empty_world (w : World) : Prop :=
  (forall c, ss_categories (session w) = Some c -> default_empty c) /\
  (forall c, category_file (disk w) = Some c -> default_empty c).

(** The same in the stores of a running script. *)
Definition default_empty_state (st : State) : Prop :=
  default_empty (categories st) /\
  (forall c, category_file (files st) = Some c -> default_empty c).

(** The user never moves a row of the grid to "Uncategorized". *)
Definition keeps_default {L : Library} (ui : UI) : Prop :=
  forall idx e,
    eCategory (data_editor ui idx e) = Uncategorized -> eCategory e = Uncategorized.

(** The loader fails with [e]: in [pd.read_csv], in the coercion of
    [Amount], or in the parsing of [Date]. *)
Definition load_fails {L : Library} (file : File) (e : exn) : Prop :=
  read_csv file = Raise e \/
  exists raw,
    read_csv file = Ok raw /\
    (coerce_amounts raw = Raise e \/
     exists amounts, coerce_amounts raw = Ok amounts /\ coerce_dates raw = Raise e).

(** What a frame holds apart from the [Category] column. *)
Definition other_columns (ir : nat * Row)
  : nat * datetime * string * float * string :=
  (fst ir, Date (snd ir), Details (snd ir), Amount (snd ir), DebitCredit (snd ir)).

(** The two ways the Category Store is ever written: a new, non-empty name
    is appended with no keyword (lines 100-101), or a new, trimmed, non-empty
    keyword is appended to the list of a known category (lines 71-73). *)
Inductive evolves : Categories -> Categories -> Prop :=
| evolves_refl (cats : Categories) : evolves cats cats
| evolves_add (cats cats' : Categories) (name : string) :
    evolves cats cats' ->
    name <> EmptyString -> get name cats' = None ->
    evolves cats (set name [] cats')
| evolves_learn (cats cats' : Categories) (category keyword : string)
    (keywords : list string) :
    evolves cats cats' ->
    get category cats' = Some keywords ->
    keyword <> EmptyString -> Str.strip keyword = keyword ->
    ~ In keyword keywords ->
    evolves cats (set category (keywords ++ [keyword]) cats').

(** The category document, when there is one, holds the Category Store. *)
Definition saved (st : State) : Prop :=
  category_file (files st) = None \/
  category_file (files st) = Some (categories st).

(** Every keyword list is free of duplicates, and its keywords are trimmed
    and not empty. *)
Definition keywords_clean (cats : Categories) : Prop :=
  forall c kws,
    In (c, kws) cats ->
    NoDup kws /\ Forall (fun k => Str.strip k = k /\ k <> EmptyString) kws.

(** The budgets lines 17-26 find: the budget document if there is one,
    else what the session holds, else nothing. *)
Definition loaded_budgets (w : World) : Budgets :=
  match budget_file (disk w) with
  | Some b => b
  | None => match ss_budgets (session w) with Some b => b | None => [] end
  end.

(** The rows of a frame that are in category [c]. *)
Definition rows_of (c : string) (df : DataFrame) : DataFrame :=
  filter (fun ir => String.eqb (Category (snd ir)) c) df.

(** [x] is at least [y]: the order of [sort_values(ascending=False)]. *)
Definition at_least (x y : float) : Prop := PrimFloat.leb y x = true.

(* ================================================================== *)
(** * Properties *)
(* ================================================================== *)

(** ** Strings *)

Lemma rstrip_idempotent (s : string) : Str.rstrip (Str.rstrip s) = Str.rstrip s.
Proof.
  induction s as [|c s IH]; simpl; [reflexivity|].
  destruct (Str.rstrip s) as [|c' r] eqn:E.
  - destruct (Str.isspace c) eqn:Ec; simpl; [reflexivity|].
    now rewrite Ec.
  - simpl in *. now rewrite IH.
Qed.

Lemma lstrip_head (s : string) :
  match Str.lstrip s with
  | EmptyString => True
  | String c _ => Str.isspace c = false
  end.
Proof.
  induction s as [|c s IH]; simpl; [exact I|].
  destruct (Str.isspace c) eqn:Ec; [exact IH|exact Ec].
Qed.

Lemma rstrip_keeps_head (c : ascii) (s : string) :
  Str.isspace c = false ->
  exists r, Str.rstrip (String c s) = String c r.
Proof.
  intros Hc. simpl. destruct (Str.rstrip s).
  - rewrite Hc. now exists EmptyString.
  - eexists. reflexivity.
Qed.

Lemma strip_idempotent (s : string) : Str.strip (Str.strip s) = Str.strip s.
Proof.
  unfold Str.strip.
  pose proof (lstrip_head s) as H.
  destruct (Str.lstrip s) as [|c t] eqn:E; [reflexivity|].
  destruct (rstrip_keeps_head c t H) as [r Hr].
  rewrite Hr. cbn [Str.lstrip]. rewrite H, <- Hr.
  apply rstrip_idempotent.
Qed.

Lemma mem_In (x : string) (xs : list string) : Str.mem x xs = true <-> In x xs.
Proof.
  unfold Str.mem. rewrite existsb_exists. split.
  - intros [y [Hy He]]. apply String.eqb_eq in He. now subst.
  - intros H. exists x. split; [exact H|apply String.eqb_refl].
Qed.

(** ** The categoriser, row by row *)

Lemma set_Category_twice (c c' : string) (r : Row) :
  set_Category c' (set_Category c r) = set_Category c' r.
Proof. reflexivity. Qed.

Lemma set_Category_same (r : Row) : set_Category (Category r) r = r.
Proof. now destruct r. Qed.

Lemma labels_unique (df : DataFrame) (a b : nat * Row) :
  NoDup (map fst df) -> In a df -> In b df -> fst a = fst b -> a = b.
Proof.
  induction df as [|x df IH]; simpl; [tauto|].
  intros Hnd [Ha|Ha] [Hb|Hb] Hab; inversion Hnd as [|? ? Hx Hnd']; subst.
  - reflexivity.
  - exfalso. apply Hx. rewrite Hab. now apply in_map.
  - exfalso. apply Hx. rewrite <- Hab. now apply in_map.
  - now apply IH.
Qed.

(** The inner loop after it has visited the rows [l]: a row of the frame
    has the category if one of the visited rows with its label matched. *)
Lemma categorize_visited (c : string) (lowered : list string) (l d : DataFrame) :
  fold_left
    (fun d ir => if row_matches lowered (snd ir)
                 then at_set_Category (fst ir) c d else d) l d
  = map (fun ir =>
           if existsb (fun jr => Nat.eqb (fst ir) (fst jr)
                                 && row_matches lowered (snd jr)) l
           then (fst ir, set_Category c (snd ir)) else ir) d.
Proof.
  revert d. induction l as [|jr l IH]; intros d; simpl.
  - symmetry. apply map_id.
  - rewrite IH. destruct (row_matches lowered (snd jr)) eqn:Hm.
    + unfold at_set_Category. rewrite map_map. apply map_ext.
      intros [i r]. simpl. rewrite andb_true_r.
      destruct (Nat.eqb i (fst jr)); simpl; [|reflexivity].
      now destruct (existsb _ l).
    + apply map_ext. intros [i r]. simpl. now rewrite andb_false_r.
Qed.

Lemma visited_own_row (lowered : list string) (df : DataFrame) (ir : nat * Row) :
  NoDup (map fst df) -> In ir df ->
  existsb (fun jr => Nat.eqb (fst ir) (fst jr) && row_matches lowered (snd jr)) df
  = row_matches lowered (snd ir).
Proof.
  intros Hnd Hin. apply eq_iff_eq_true. rewrite existsb_exists. split.
  - intros [jr [Hj Hb]]. apply andb_prop in Hb as [He Hm].
    apply Nat.eqb_eq in He.
    now rewrite (labels_unique df ir jr Hnd Hin Hj He).
  - intros Hm. exists ir. split; [exact Hin|].
    now rewrite Nat.eqb_refl, Hm.
Qed.

Lemma categorize_with_rows (c : string) (lowered : list string) (df : DataFrame) :
  NoDup (map fst df) ->
  categorize_with c lowered df
  = map (fun ir => if row_matches lowered (snd ir)
                   then (fst ir, set_Category c (snd ir)) else ir) df.
Proof.
  intros Hnd. unfold categorize_with. rewrite categorize_visited.
  apply map_ext_in. intros ir Hin. now rewrite visited_own_row.
Qed.

Lemma labels_map (f : nat * Row -> nat * Row) (df : DataFrame) :
  (forall ir, fst (f ir) = fst ir) -> map fst (map f df) = map fst df.
Proof. intros H. rewrite map_map. now apply map_ext. Qed.

Lemma categorize_loop_rows (cats : Categories) (df : DataFrame) :
  NoDup (map fst df) ->
  categorize_loop cats df = map (recategorized cats) df.
Proof.
  unfold categorize_loop, items. revert df.
  induction cats as [|[c kws] cats IH]; intros df Hnd; simpl.
  - erewrite map_ext; [symmetry; apply map_id|].
    intros [i r]. unfold recategorized. simpl. now rewrite set_Category_same.
  - destruct (skipped c kws) eqn:Hs.
    + rewrite IH by exact Hnd. apply map_ext. intros [i r].
      unfold recategorized, assigned. simpl. now rewrite Hs.
    + rewrite categorize_with_rows by exact Hnd.
      rewrite IH.
      * rewrite map_map. apply map_ext. intros [i r].
        unfold recategorized, assigned, row_matches. simpl. rewrite Hs.
        now destruct (Str.mem (Str.lower (Details r)) (lowered_keywords kws)).
      * rewrite labels_map; [exact Hnd|].
        intros [i r]. simpl. now destruct (row_matches _ r).
Qed.

Lemma categorize_transactions_rows (cats : Categories) (df : DataFrame) :
  NoDup (map fst df) ->
  categorize_transactions cats df = map (categorized cats) df.
Proof.
  intros Hnd. unfold categorize_transactions, assign_Category.
  rewrite categorize_loop_rows.
  - rewrite map_map. now apply map_ext.
  - now rewrite labels_map.
Qed.

Lemma map_fst_combine {A B : Type} (l : list A) (l' : list B) :
  List.length l = List.length l' -> map fst (combine l l') = l.
Proof.
  revert l'. induction l as [|a l IH]; intros [|b l'] H; simpl in *;
    try discriminate; [reflexivity|].
  f_equal. apply IH. now injection H.
Qed.

Lemma RangeIndex_labels (rows : list Row) :
  map fst (RangeIndex rows) = seq 0 (List.length rows).
Proof. unfold RangeIndex. apply map_fst_combine. apply length_seq. Qed.

Lemma RangeIndex_unique (rows : list Row) : NoDup (map fst (RangeIndex rows)).
Proof. rewrite RangeIndex_labels. apply seq_NoDup. Qed.

(** The last entry that matches decides; without one the value stays. *)
Lemma assigned_last (cats : Categories) (current details : string) :
  assigned cats current details
  = match find (entry_matches details) (rev cats) with
    | Some ck => fst ck
    | None => current
    end.
Proof.
  induction cats as [|ck cats IH] using rev_ind; [reflexivity|].
  unfold assigned in *. rewrite fold_left_app, rev_unit. simpl.
  unfold entry_matches at 1. rewrite IH.
  destruct (skipped (fst ck) (snd ck)); simpl; [reflexivity|].
  now destruct (Str.mem (Str.lower details) (lowered_keywords (snd ck))).
Qed.

(** C1. Categoriser soundness: after [categorize_transactions] has run on
    the rows read from a file, with any category store, every row's category
    is either "Uncategorized" or the name of a store entry whose keywords,
    lowercased and trimmed, contain the row's lowercased and trimmed detail
    text. *)
Theorem categorizer_sound (cats : Categories) (rows : list Row) :
  Forall
    (fun ir =>
       Category (snd ir) = Uncategorized \/
       exists keywords,
         In (Category (snd ir), keywords) (items cats) /\
         In (Str.strip (Str.lower (Details (snd ir)))) (lowered_keywords keywords))
    (categorize_transactions cats (RangeIndex rows)).
Proof.
  rewrite categorize_transactions_rows by apply RangeIndex_unique.
  apply Forall_forall. intros ir Hin.
  apply in_map_iff in Hin as [[i r] [<- _]].
  unfold categorized. simpl. rewrite assigned_last.
  destruct (find (entry_matches (Details r)) (rev cats)) as [[c kws]|] eqn:Hf;
    [right|now left].
  apply find_some in Hf as [Hin Hm]. apply in_rev in Hin.
  apply andb_prop in Hm as [_ Hm]. simpl in Hm. apply mem_In in Hm.
  exists kws. split; [exact Hin|]. simpl.
  unfold lowered_keywords in *. apply in_map_iff in Hm as [k [Hk Hin']].
  rewrite <- Hk, strip_idempotent. apply in_map_iff. now exists k.
Qed.

(** C2, as the code has it. The category of a row is the name of the last
    entry, in the store's iteration order, that takes part in the scan and
    matches the row's detail: every later match overwrites an earlier one.
    Without a matching entry the row stays "Uncategorized". *)
Theorem categorizer_last_match_wins (cats : Categories) (rows : list Row) :
  Forall
    (fun ir =>
       Category (snd ir)
       = match find (entry_matches (Details (snd ir))) (rev (items cats)) with
         | Some ck => fst ck
         | None => Uncategorized
         end)
    (categorize_transactions cats (RangeIndex rows)).
Proof.
  rewrite categorize_transactions_rows by apply RangeIndex_unique.
  apply Forall_forall. intros ir Hin.
  apply in_map_iff in Hin as [[i r] [<- _]].
  unfold categorized. simpl. apply assigned_last.
Qed.

(** C2, as stated, fails: with "Food" and "Drinks" both holding the keyword
    "coffee shop", in this order, the row "Coffee Shop" matches two distinct
    categories; "Food" is the first of them, and the row ends up in
    "Drinks". *)
Lemma first_match_overwritten :
  ~ (forall (cats : Categories) (rows : list Row),
        Forall
          (fun ir =>
             forall first other,
               find (entry_matches (Details (snd ir))) (items cats) = Some first ->
               In other (items cats) ->
               entry_matches (Details (snd ir)) other = true ->
               fst other <> fst first ->
               Category (snd ir) = fst first)
          (categorize_transactions cats (RangeIndex rows))).
Proof.
  intros H.
  specialize (H [(Uncategorized, []); ("Food", ["coffee shop"]);
                 ("Drinks", ["coffee shop"])]
                [{| Date := {| year := 2024; month := 1; day := 1 |};
                    Details := "Coffee Shop"; Amount := 4.5%float;
                    DebitCredit := "Debit"; Category := EmptyString |}]).
  inversion H as [|ir l Hck _]; subst.
  specialize (Hck ("Food", ["coffee shop"]) ("Drinks", ["coffee shop"]) eq_refl).
  vm_compute in Hck.
  assert (Hc : "Drinks" = "Food") by (apply Hck; [tauto|reflexivity|discriminate]).
  discriminate Hc.
Qed.

(** C8. Categoriser idempotence: with the store unchanged, a second run of
    [categorize_transactions] on the output of the first returns that
    output, so every row keeps the category the first run gave it. *)
Theorem categorizer_idempotent (cats : Categories) (rows : list Row) :
  categorize_transactions cats (categorize_transactions cats (RangeIndex rows))
  = categorize_transactions cats (RangeIndex rows).
Proof.
  rewrite (categorize_transactions_rows cats (RangeIndex rows))
    by apply RangeIndex_unique.
  rewrite categorize_transactions_rows.
  - rewrite map_map. apply map_ext. now intros [i r].
  - rewrite labels_map; [apply RangeIndex_unique|reflexivity].
Qed.

(** ** Dictionaries *)

Section DictFacts.
Context {V : Type}.
Implicit Types (d : dict V) (k : string) (v : V).

Lemma get_set_same k v d : get k (set k v d) = Some v.
Proof.
  induction d as [|[k' v'] d IH]; simpl.
  - now rewrite String.eqb_refl.
  - destruct (String.eqb k k') eqn:E; simpl; rewrite E; [reflexivity|exact IH].
Qed.

Lemma get_set_other k k' v d : k' <> k -> get k' (set k v d) = get k' d.
Proof.
  intros Hne. induction d as [|[k0 v0] d IH]; simpl.
  - apply String.eqb_neq in Hne. now rewrite Hne.
  - destruct (String.eqb k k0) eqn:E; simpl; [|now rewrite IH].
    apply String.eqb_eq in E. subst k0.
    apply String.eqb_neq in Hne. now rewrite Hne.
Qed.

Lemma set_fresh k v d : get k d = None -> set k v d = d ++ [(k, v)].
Proof.
  induction d as [|[k' v'] d IH]; simpl; [reflexivity|].
  destruct (String.eqb k k'); [discriminate|]. intros H. now rewrite IH.
Qed.

Lemma keys_set_present k v d : contains k d = true -> keys (set k v d) = keys d.
Proof.
  unfold contains, keys. induction d as [|[k' v'] d IH]; simpl; [discriminate|].
  destruct (String.eqb k k') eqn:E; simpl; [reflexivity|].
  intros H. now rewrite IH.
Qed.

Lemma contains_get k d : contains k d = false <-> get k d = None.
Proof. unfold contains. destruct (get k d); split; congruence. Qed.

End DictFacts.

(** ** The stores *)

(** C3, as the code has it. [add_keyword_to_category] trims the keyword.
    It leaves the stores and the documents as they are and returns False when
    the trimmed keyword is empty, or when the category is known and already
    holds the trimmed keyword. For a known category and a new, non-empty
    trimmed keyword it appends the trimmed keyword to that category's list
    (no other entry and no key order changes), writes the category document
    and returns True. For an unknown category and a non-empty trimmed keyword
    it raises KeyError, the stores and documents untouched. *)
Theorem add_keyword_contract (category keyword : string) (st : State) :
  let kw := Str.strip keyword in
  let r := add_keyword_to_category category keyword st in
  (kw = EmptyString -> r = (Ok false, st)) /\
  (forall kws, get category (categories st) = Some kws -> In kw kws ->
               r = (Ok false, st)) /\
  (forall kws, kw <> EmptyString -> get category (categories st) = Some kws ->
               ~ In kw kws ->
               fst r = Ok true /\
               get category (categories (snd r)) = Some (kws ++ [kw]) /\
               (forall c, c <> category ->
                          get c (categories (snd r)) = get c (categories st)) /\
               keys (categories (snd r)) = keys (categories st) /\
               budgets (snd r) = budgets st /\
               category_file (files (snd r)) = Some (categories (snd r)) /\
               budget_file (files (snd r)) = budget_file (files st)) /\
  (kw <> EmptyString -> get category (categories st) = None ->
   r = (Raise (KeyError category), st)).
Proof.
  cbv zeta. unfold add_keyword_to_category.
  destruct (Str.strip keyword) as [|a kw] eqn:Ekw.
  - simpl. repeat split; congruence.
  - simpl. split; [discriminate|]. split; [|split].
    + intros kws Hget Hin. rewrite Hget.
      apply mem_In in Hin. now rewrite Hin.
    + intros kws _ Hget Hnin. rewrite Hget.
      destruct (Str.mem (String a kw) kws) eqn:Hm;
        [exfalso; apply Hnin; now apply mem_In|].
      simpl. repeat split.
      * apply get_set_same.
      * intros c Hc. now apply get_set_other.
      * apply keys_set_present. unfold contains. now rewrite Hget.
    + intros _ Hget. now rewrite Hget.
Qed.

(** The four cases of C3 on a store with "Food": ["coffee"]. *)
Lemma add_keyword_contract_cases :
  let st := with_categories [(Uncategorized, []); ("Food", ["coffee"])]
                            (startup fresh_world) in
  add_keyword_to_category "Food" "   " st = (Ok false, st) /\
  add_keyword_to_category "Food" " coffee " st = (Ok false, st) /\
  fst (add_keyword_to_category "Food" " tea " st) = Ok true /\
  get "Food" (categories (snd (add_keyword_to_category "Food" " tea " st)))
  = Some ["coffee"; "tea"] /\
  add_keyword_to_category "Drinks" "tea" st = (Raise (KeyError "Drinks"), st).
Proof.
  cbv zeta.
  set (st := with_categories _ _).
  destruct (add_keyword_contract "Food" "   " st) as [H1 _].
  destruct (add_keyword_contract "Food" " coffee " st) as [_ [H2 _]].
  destruct (add_keyword_contract "Food" " tea " st) as [_ [_ [H3 _]]].
  destruct (add_keyword_contract "Drinks" "tea" st) as [_ [_ [_ H4]]].
  cbv zeta in *.
  split; [apply H1; reflexivity|].
  split; [apply (H2 ["coffee"]); [reflexivity|now left]|].
  destruct (H3 ["coffee"]) as [Ha [Hb _]];
    [discriminate|reflexivity|intros [H|[]]; discriminate H|].
  split; [exact Ha|]. split; [exact Hb|].
  apply H4; [discriminate|reflexivity].
Defined.

(** C3, as stated, fails: on the default store the category "Food" is
    unknown, and the call with the keyword "coffee" raises KeyError instead
    of returning False. *)
Lemma add_keyword_unknown_category_raises :
  let st := startup fresh_world in
  contains "Food" (categories st) = false /\
  add_keyword_to_category "Food" "coffee" st = (Raise (KeyError "Food"), st) /\
  fst (add_keyword_to_category "Food" "coffee" st) <> Ok false.
Proof. cbv zeta. repeat split. discriminate. Qed.

Lemma float_neq_by_eqb (x y : float) : PrimFloat.eqb x x = true ->
  PrimFloat.eqb x y = false -> x <> y.
Proof. intros Hx Hxy ->. congruence. Qed.

(** C6, as the code has it. Pressing "Add Category" with an empty name or
    with a name that is already a category changes nothing. With a new,
    non-empty name the handler appends the name with an empty keyword list to
    the Category Store, makes sure the Budget Store has an entry for it (0.0
    if it had none, the value it had otherwise), writes both documents and
    asks for a rerun. A second call with the same name changes nothing
    more. *)
Theorem add_category_contract (name : string) (st : State) :
  let r := add_category true name st in
  (name = EmptyString \/ contains name (categories st) = true -> r = (st, false)) /\
  (name <> EmptyString -> contains name (categories st) = false ->
   snd r = true /\
   categories (fst r) = categories st ++ [(name, [])] /\
   budgets (fst r) = (if contains name (budgets st) then budgets st
                      else budgets st ++ [(name, 0%float)]) /\
   files (fst r) = {| category_file := Some (categories (fst r));
                      budget_file := Some (budgets (fst r)) |}) /\
  add_category true name (fst r) = (fst r, false).
Proof.
  cbv zeta. unfold add_category.
  destruct name as [|a name]; simpl.
  - repeat split; congruence.
  - destruct (contains (String a name) (categories st)) eqn:Hc; simpl.
    + rewrite Hc. simpl. repeat split; try congruence.
    + split; [intros [H|H]; discriminate H|].
      apply contains_get in Hc.
      split.
      * intros _ _. split; [reflexivity|].
        split; [now apply set_fresh|].
        split; [|reflexivity].
        unfold setdefault.
        destruct (contains (String a name) (budgets st)) eqn:Hb; [reflexivity|].
        apply set_fresh. now apply contains_get.
      * unfold contains at 1. now rewrite get_set_same.
Qed.

(** The cases of C6 on the default stores. *)
Lemma add_category_contract_cases :
  let st := startup fresh_world in
  add_category true Uncategorized st = (st, false) /\
  categories (fst (add_category true "Food" st))
  = [(Uncategorized, []); ("Food", [])] /\
  budgets (fst (add_category true "Food" st))
  = [(Uncategorized, 0%float); ("Food", 0%float)].
Proof.
  cbv zeta.
  destruct (add_category_contract Uncategorized (startup fresh_world)) as [H1 _].
  destruct (add_category_contract "Food" (startup fresh_world)) as [_ [H2 _]].
  cbv zeta in *.
  split; [apply H1; now right|].
  destruct H2 as [_ [Hc [Hb _]]]; [discriminate|reflexivity|].
  split; [exact Hc|exact Hb].
Defined.

(** C6, as stated, fails in two places. A budget entry that is already there
    under the new name is kept, not set to zero; and an empty name, although
    no category has it, creates nothing. *)
Lemma add_category_keeps_budget_and_skips_empty_name :
  let st := {| categories := default_categories;
               budgets := [(Uncategorized, 0%float); ("Food", 50%float)];
               files := {| category_file := None; budget_file := None |} |} in
  (contains "Food" (categories st) = false /\
   get "Food" (budgets (fst (add_category true "Food" st))) = Some 50%float /\
   50%float <> 0%float) /\
  (contains EmptyString (categories st) = false /\
   add_category true EmptyString st = (st, false)).
Proof.
  cbv zeta. repeat split. now apply float_neq_by_eqb.
Qed.

(** X23. The handler of backup.py: an empty or known name changes nothing;
    a fresh name gets an empty keyword list and the category document is
    written; there is no budget entry to create. *)
Lemma backup_add_category_contract (name : string) (st : Backup.State) :
  let r := Backup.add_category true name st in
  (name = EmptyString \/ contains name (Backup.categories st) = true ->
   r = (st, false)) /\
  (name <> EmptyString -> contains name (Backup.categories st) = false ->
   r = ({| Backup.categories := Backup.categories st ++ [(name, [])];
           Backup.category_file := Some (Backup.categories st ++ [(name, [])]) |},
        true)).
Proof.
  cbv zeta. unfold Backup.add_category.
  destruct name as [|a name]; simpl.
  - split; congruence.
  - destruct (contains (String a name) (Backup.categories st)) eqn:Hc; simpl.
    + split; congruence.
    + split; [intros [H|H]; discriminate H|].
      intros _ _. apply contains_get in Hc. now rewrite set_fresh.
Qed.

(** ** The reserved category *)

Section Reserved.
Context {L : Library}.

Lemma startup_default (w : World) :
  default_empty_world w -> default_empty_state (startup w).
Proof.
  intros [Hs Hd]. unfold default_empty_state, startup. simpl. split; [|exact Hd].
  destruct (category_file (disk w)) as [c|]; [now apply Hd|].
  destruct (ss_categories (session w)) as [c|]; [now apply Hs|reflexivity].
Qed.

Lemma world_of_default (st : State) :
  default_empty_state st -> default_empty_world (world_of st).
Proof.
  intros [Hc Hf]. split; simpl; [|exact Hf].
  intros c [= <-]. exact Hc.
Qed.

Lemma add_category_default (b : bool) (name : string) (st : State) :
  default_empty_state st -> default_empty_state (fst (add_category b name st)).
Proof.
  intros [Hc Hf]. unfold add_category.
  destruct (b && Str.truthy name); [|now split].
  destruct (contains name (categories st)) eqn:Hn; simpl; [now split|].
  assert (Hne : Uncategorized <> name).
  { intros <-. unfold contains, default_empty in *. now rewrite Hc in Hn. }
  assert (Hd : default_empty (set name [] (categories st))).
  { unfold default_empty. now rewrite get_set_other. }
  split; simpl; [exact Hd|]. intros c [= <-]. exact Hd.
Qed.

Lemma budget_inputs_categories (f : string -> float -> float) (st : State) :
  categories (fst (budget_inputs f st)) = categories st /\
  files (fst (budget_inputs f st)) = files st.
Proof.
  unfold budget_inputs.
  assert (H : forall ks so,
             categories (fst (fold_left (budget_input f) ks so))
             = categories (fst so) /\
             files (fst (fold_left (budget_input f) ks so)) = files (fst so)).
  { induction ks as [|k ks IH]; intros so; simpl; [now split|].
    destruct (IH (budget_input f so k)) as [H1 H2]. now rewrite H1, H2. }
  apply (H _ (st, [])).
Qed.

Lemma add_keyword_default (category keyword : string) (st : State) :
  category <> Uncategorized -> default_empty_state st ->
  default_empty_state (snd (add_keyword_to_category category keyword st)).
Proof.
  intros Hne [Hc Hf]. unfold add_keyword_to_category.
  destruct (Str.truthy (Str.strip keyword)); [|now split].
  destruct (get category (categories st)) as [kws|]; [|now split].
  destruct (negb (Str.mem (Str.strip keyword) kws)); [|now split].
  assert (Hd : default_empty
                 (set category (kws ++ [Str.strip keyword]) (categories st))).
  { unfold default_empty. rewrite get_set_other; [exact Hc|].
    intros H. now apply Hne. }
  split; simpl; [exact Hd|]. intros c [= <-]. exact Hd.
Qed.

Lemma at_Category_other (idx idx' : nat) (c : string) (df : DataFrame) :
  idx' <> idx ->
  at_Category idx' (at_set_Category idx c df) = at_Category idx' df.
Proof.
  intros Hne. induction df as [|[i r] df IH]; simpl; [reflexivity|].
  destruct (Nat.eqb i idx) eqn:Ei; simpl.
  - apply Nat.eqb_eq in Ei. subst i.
    apply not_eq_sym in Hne. apply Nat.eqb_neq in Hne. now rewrite Hne.
  - now rewrite IH.
Qed.

Lemma at_Category_In (df : DataFrame) (i : nat) (r : Row) :
  NoDup (map fst df) -> In (i, r) df -> at_Category i df = Some (Category r).
Proof.
  induction df as [|[j r'] df IH]; simpl; [tauto|].
  intros Hnd [H|H]; inversion Hnd as [|? ? Hj Hnd']; subst.
  - injection H as -> ->. now rewrite Nat.eqb_refl.
  - destruct (Nat.eqb j i) eqn:E; [|now apply IH].
    apply Nat.eqb_eq in E. subst j. exfalso. apply Hj.
    change i with (fst (i, r)). now apply in_map.
Qed.

(** The learning loop never reaches "Uncategorized" when every edited row
    that shows it had it before. *)
Lemma apply_changes_default (edited : list (nat * Expense)) (st : State)
    (debits : DataFrame) :
  NoDup (map fst edited) ->
  (forall idx row, In (idx, row) edited -> eCategory row = Uncategorized ->
                   at_Category idx debits = Some Uncategorized) ->
  default_empty_state st ->
  default_empty_state (snd (fst (apply_changes edited st debits))).
Proof.
  revert st debits. induction edited as [|[idx row] edited IH];
    intros st debits Hnd Hed Hst; simpl; [exact Hst|].
  inversion Hnd as [|? ? Hidx Hnd']; subst.
  destruct (at_Category idx debits) as [old|] eqn:Hat; [|exact Hst].
  destruct (String.eqb (eCategory row) old) eqn:Heq.
  - apply IH; [exact Hnd'| |exact Hst].
    intros i r Hin. apply Hed. now right.
  - assert (Hne : eCategory row <> Uncategorized).
    { intros Hu. specialize (Hed idx row (or_introl eq_refl) Hu).
      rewrite Hat in Hed. injection Hed as ->.
      rewrite Hu, String.eqb_refl in Heq. discriminate. }
    pose proof (add_keyword_default (eCategory row) (eDetails row) st Hne Hst)
      as Hst'.
    destruct (add_keyword_to_category (eCategory row) (eDetails row) st)
      as [[b|e] st']; simpl in *; [|exact Hst'].
    apply IH; [exact Hnd'| |exact Hst'].
    intros i r Hin Hu. rewrite at_Category_other.
    + apply (Hed i r); [now right|exact Hu].
    + intros ->. apply Hidx. change idx with (fst (idx, r)). now apply in_map.
Qed.

Lemma labels_filter (p : nat * Row -> bool) (df : DataFrame) :
  NoDup (map fst df) -> NoDup (map fst (filter p df)).
Proof.
  induction df as [|x df IH]; simpl; [trivial|].
  intros Hnd. inversion Hnd as [|? ? Hx Hnd']; subst.
  destruct (p x); simpl; [|now apply IH].
  constructor; [|now apply IH].
  intros Hin. apply Hx. apply in_map_iff in Hin as [y [Hy Hin]].
  apply filter_In in Hin as [Hin _]. rewrite <- Hy. now apply in_map.
Qed.

Lemma load_transactions_labels (cats : Categories) (file : File)
    (df : DataFrame) (out : list Widget) :
  load_transactions cats file = (Some df, out) -> NoDup (map fst df).
Proof.
  unfold load_transactions, load_body.
  destruct (read_csv file) as [raw|e]; simpl; [|discriminate].
  destruct (coerce_amounts raw) as [amounts|e]; simpl; [|discriminate].
  destruct (coerce_dates raw) as [dates|e]; simpl; [|discriminate].
  intros [= <- _].
  rewrite categorize_transactions_rows by apply RangeIndex_unique.
  rewrite labels_map; [apply RangeIndex_unique|reflexivity].
Qed.

End Reserved.

Section ReservedRuns.
Context {L : Library}.

Lemma edited_grid_default (ui : UI) (debits : DataFrame) (idx : nat)
    (row : Expense) :
  keeps_default ui -> NoDup (map fst debits) ->
  In (idx, row)
     (map (fun ie => (fst ie, data_editor ui (fst ie) (snd ie)))
          (expense_grid debits)) ->
  eCategory row = Uncategorized ->
  at_Category idx debits = Some Uncategorized.
Proof.
  intros Hk Hnd Hin Hu. unfold expense_grid in Hin. rewrite map_map in Hin.
  apply in_map_iff in Hin as [[i r] [Heq Hin]]. simpl in Heq.
  injection Heq as <- <-. apply Hk in Hu. simpl in Hu.
  rewrite (at_Category_In debits i r Hnd Hin). now rewrite Hu.
Qed.

Lemma main_default (ui : UI) (st : State) :
  keeps_default ui -> default_empty_state st ->
  default_empty_state (snd (fst (main ui st))).
Proof.
  intros Hk Hst. unfold main.
  destruct (uploaded_file ui) as [file|]; [|exact Hst].
  destruct (load_transactions (categories st) file) as [[df|] errors] eqn:Hl;
    [|exact Hst].
  pose proof (add_category_default (add_button ui) (new_category ui) st Hst)
    as Hst1.
  destruct (add_category (add_button ui) (new_category ui) st) as [st1 [|]];
    simpl in Hst1; [exact Hst1|].
  destruct (budget_inputs_categories (number_input ui) st1) as [Hc Hf].
  destruct (budget_inputs (number_input ui) st1) as [st2 inputs]. simpl in Hc, Hf.
  assert (Hst2 : default_empty_state st2).
  { destruct Hst1 as [H1 H2]. split; [now rewrite Hc|now rewrite Hf]. }
  assert (Hnd : NoDup (map fst (polarity "Debit" df))).
  { apply labels_filter. now apply (load_transactions_labels _ _ _ _ Hl). }
  set (edited := map _ (expense_grid _)).
  assert (Hnd' : NoDup (map fst edited)).
  { unfold edited, expense_grid. now rewrite !map_map. }
  assert (Hed : forall idx row, In (idx, row) edited ->
                  eCategory row = Uncategorized ->
                  at_Category idx (polarity "Debit" df) = Some Uncategorized).
  { intros idx row. now apply edited_grid_default. }
  assert (Hst3 : default_empty_state
                   (if save_budgets_button ui then save_budgets st2 else st2)).
  { destruct (save_budgets_button ui); [|exact Hst2].
    destruct Hst2 as [H1 H2]. now split. }
  destruct (save_budgets_button ui).
  - destruct (apply_button ui).
    + pose proof (apply_changes_default edited _ _ Hnd' Hed Hst3) as H.
      now destruct (apply_changes edited (save_budgets st2) _) as [[[e|] st4] d].
    + exact Hst3.
  - destruct (apply_button ui).
    + pose proof (apply_changes_default edited _ _ Hnd' Hed Hst3) as H.
      now destruct (apply_changes edited st2 _) as [[[e|] st4] d].
    + exact Hst3.
Qed.

Lemma run_default (ui : UI) (w : World) :
  keeps_default ui -> default_empty_world w ->
  default_empty_world (snd (fst (run ui w))).
Proof.
  intros Hk Hw. unfold run.
  pose proof (main_default ui (startup w) Hk (startup_default w Hw)) as H.
  destruct (main ui (startup w)) as [[o st] out]. simpl in *.
  now apply world_of_default.
Qed.

Lemma fresh_world_default : default_empty_world fresh_world.
Proof. split; discriminate. Qed.

(** C7, as the code has it. Starting from a new session with no document
    on disk, after any series of runs of the script (uploads, added
    categories, budget inputs and saves, applied changes) in which the user
    never moves a row of the grid to "Uncategorized", the keyword list of
    "Uncategorized" is empty: in the session, in the category document, and
    in the store the next run starts from. *)
Theorem uncategorized_stays_empty (uis : list UI) :
  Forall keeps_default uis ->
  default_empty_world (runs uis fresh_world) /\
  default_empty (categories (startup (runs uis fresh_world))).
Proof.
  intros Hk.
  assert (H : default_empty_world (runs uis fresh_world)).
  { unfold runs. revert Hk. generalize fresh_world_default.
    generalize fresh_world as w.
    induction uis as [|ui uis IH]; intros w Hw Hk; simpl; [exact Hw|].
    inversion Hk as [|? ? Hui Huis]; subst.
    apply IH; [|exact Huis]. now apply run_default. }
  split; [exact H|]. now apply startup_default.
Qed.

End ReservedRuns.

(** A session that adds "Food" and teaches it "Coffee Shop" keeps the
    reserved category empty. *)
Lemma uncategorized_stays_empty_session :
  let uis := [Sample.add Plain.python Sample.one_coffee "Food";
              Sample.move_all Plain.python Sample.one_coffee "Food"] in
  Forall keeps_default uis /\
  default_empty_world (runs uis fresh_world) /\
  ss_categories (session (runs uis fresh_world))
  = Some [(Uncategorized, []); ("Food", ["Coffee Shop"])].
Proof.
  cbv zeta.
  assert (H : Forall (@keeps_default Plain.python)
                [Sample.add Plain.python Sample.one_coffee "Food";
                 Sample.move_all Plain.python Sample.one_coffee "Food"]).
  { repeat constructor; intros idx e; simpl; [tauto|discriminate]. }
  split; [exact H|]. split; [|reflexivity].
  exact (proj1 (uncategorized_stays_empty _ H)).
Defined.

(** C7, as stated, fails: once "Food" has learnt "Coffee Shop", moving the
    row back to "Uncategorized" and applying the change appends its detail
    to the keyword list of "Uncategorized", in the session and on disk. *)
Lemma uncategorized_learns_keyword :
  let uis := [Sample.add Plain.python Sample.one_coffee "Food";
              Sample.move_all Plain.python Sample.one_coffee "Food";
              Sample.move_all Plain.python Sample.one_coffee Uncategorized] in
  ss_categories (session (runs uis fresh_world))
  = Some [(Uncategorized, ["Coffee Shop"]); ("Food", ["Coffee Shop"])] /\
  category_file (disk (runs uis fresh_world))
  = Some [(Uncategorized, ["Coffee Shop"]); ("Food", ["Coffee Shop"])] /\
  ~ default_empty_world (runs uis fresh_world).
Proof.
  cbv zeta. split; [reflexivity|]. split; [reflexivity|].
  intros [H _]. specialize (H _ eq_refl). discriminate H.
Qed.

(** ** The loader *)

Section Loader.
Context {L : Library}.

Lemma load_fails_body (cats : Categories) (file : File) (e : exn) :
  load_fails file e <-> load_body cats file = Raise e.
Proof.
  unfold load_fails, load_body. split.
  - intros [H|[raw [Hr [H|[amounts [Ha H]]]]]].
    + now rewrite H.
    + rewrite Hr. simpl. now rewrite H.
    + rewrite Hr. simpl. rewrite Ha. simpl. now rewrite H.
  - destruct (read_csv file) as [raw|e0]; simpl; [|intros [= ->]; now left].
    intros H. right. exists raw. split; [reflexivity|].
    destruct (coerce_amounts raw) as [amounts|e1]; simpl in H;
      [|injection H as ->; now left].
    right. exists amounts. split; [reflexivity|].
    destruct (coerce_dates raw) as [dates|e2]; simpl in H;
      [discriminate|now injection H as ->].
Qed.

(** C10. Load-failure atomicity: when [pd.read_csv], the coercion of
    [Amount] or the parsing of [Date] raises for the uploaded file,
    [load_transactions] shows exactly one error message and returns no
    frame, and [main] draws nothing after it: no tabs, no grid, no totals,
    no charts; the stores stay as they were. *)
Theorem load_failure_stops_pipeline (ui : UI) (st : State) (file : File)
    (e : exn) :
  uploaded_file ui = Some file ->
  load_fails file e ->
  load_transactions (categories st) file
  = (None, [st_error ("Error loading file: " ++ exn_str e)]) /\
  main ui st
  = (Finished, st,
     [st_title "Simple Finance Dashboard";
      st_file_uploader "Upload your transaction CSV file";
      st_error ("Error loading file: " ++ exn_str e)]).
Proof.
  intros Hu Hf. apply (load_fails_body (categories st)) in Hf.
  assert (Hl : load_transactions (categories st) file
               = (None, [st_error ("Error loading file: " ++ exn_str e)])).
  { unfold load_transactions. now rewrite Hf. }
  split; [exact Hl|]. unfold main. now rewrite Hu, Hl.
Qed.

End Loader.

(** A file whose [Amount] fields are all numerals is refused by the [.str]
    accessor, and nothing but the error is drawn. *)
Lemma load_failure_stops_pipeline_numeric_amounts :
  let ui := Sample.upload Plain.python Sample.coffee_and_salary in
  let st := startup Sample.food_world in
  let e := AttributeError "Can only use .str accessor with string values!" in
  uploaded_file ui = Some Sample.coffee_and_salary /\
  @load_fails Plain.python Sample.coffee_and_salary e /\
  main ui st
  = (Finished, st,
     [st_title "Simple Finance Dashboard";
      st_file_uploader "Upload your transaction CSV file";
      st_error ("Error loading file: " ++ exn_str e)]).
Proof.
  cbv zeta.
  assert (Hf : @load_fails Plain.python Sample.coffee_and_salary
                 (AttributeError "Can only use .str accessor with string values!")).
  { right. eexists. split; [reflexivity|]. left. reflexivity. }
  split; [reflexivity|]. split; [exact Hf|].
  exact (proj2 (load_failure_stops_pipeline
                  (Sample.upload Plain.python Sample.coffee_and_salary)
                  (startup Sample.food_world) _ _ eq_refl Hf)).
Defined.

(** ** The end-to-end example *)

(** C9 on the code. The file of the example has no thousands separator, so
    [pd.read_csv] reads [Amount] as a column of numbers, the [.str] accessor
    of line 62 raises, and the run ends with the error message: there are no
    category totals and no credit total. *)
Theorem end_to_end_example_fails_to_load :
  run (Sample.upload Plain.python Sample.coffee_and_salary) Sample.food_world
  = (Finished, world_of (startup Sample.food_world),
     [st_title "Simple Finance Dashboard";
      st_file_uploader "Upload your transaction CSV file";
      st_error "Error loading file: Can only use .str accessor with string values!"])
  /\
  @load_transactions Plain.numpy
    (categories (startup Sample.food_world)) Sample.coffee_and_salary
  = (None,
     [st_error "Error loading file: Can only use .str accessor with string values!"]).
Proof. split; reflexivity. Qed.

Lemma map_snd_combine {A B : Type} (l : list A) (l' : list B) :
  List.length l = List.length l' -> map snd (combine l l') = l'.
Proof.
  revert l'. induction l as [|a l IH]; intros [|b l'] H; simpl in *;
    try discriminate; [reflexivity|].
  f_equal. apply IH. now injection H.
Qed.




(** With a separator in one amount the column is text, the load succeeds and
    the totals are those of the example: one row, Food, 7.70 spent of 10.0,
    2.30 remaining, 77.0 per cent used; the payments add up to 2000.00. *)
Lemma end_to_end_example_with_separator :
  let expected := [{| tCategory := "Food"; tAmount := 7.7%float;
                      tBudget := 10%float; tRemaining := 2.3%float;
                      tPercentUsed := 77%float |}] in
  let python := run (Sample.upload Plain.python
                       Sample.coffee_and_salary_with_separator)
                    Sample.food_world in
  let numpy := run (Sample.upload Plain.numpy
                      Sample.coffee_and_salary_with_separator)
                   Sample.food_world in
  fst (fst python) = Finished /\
  In (st_dataframe expected) (snd python) /\
  In (st_metric "Total Payments" 2000%float) (snd python) /\
  fst (fst numpy) = Finished /\
  In (st_dataframe expected) (snd numpy) /\
  In (st_metric "Total Payments" 2000%float) (snd numpy).
Proof.
  cbv zeta. repeat split; vm_compute; tauto.
Qed.

(** ** Binary64 facts *)

Section Binary64.
Local Open Scope float_scope.

Lemma zero_not_positive (b : float) : (b =? 0) = true -> (0 <? b) = false.
Proof.
  rewrite FloatAxioms.eqb_spec, ltb_spec.
  change (Prim2SF 0) with (S754_zero false).
  destruct (Prim2SF b) as [s|s| |s m e]; try discriminate; try reflexivity;
    destruct s; discriminate.
Qed.

Lemma positive_finite (b : float) :
  (0 <? b) = true -> is_finite b = true ->
  exists m e, Prim2SF b = S754_finite false m e.
Proof.
  unfold is_finite, is_infinity.
  rewrite ltb_spec, FloatAxioms.eqb_spec, abs_spec.
  change (Prim2SF 0) with (S754_zero false).
  change (Prim2SF infinity) with (S754_infinity false).
  destruct (Prim2SF b) as [s|s| |s m e]; try discriminate.
  - destruct s; [discriminate|]. simpl. rewrite orb_true_r. discriminate.
  - destruct s; [discriminate|]. intros _ _. now exists m, e.
Qed.

Lemma SFdiv_diag (m : positive) (e : Z) :
  SFdiv prec emax (S754_finite false m e) (S754_finite false m e) = Prim2SF 1.
Proof.
  unfold SFdiv, SFdiv_core_binary. rewrite !Z.sub_diag.
  change (Z.min (fexp prec emax 0) 0) with (-53)%Z.
  change (0 - -53)%Z with 53%Z. cbv iota.
  rewrite Z.shiftl_mul_pow2 by discriminate.
  destruct (Z.div_eucl (Z.pos m * 2 ^ 53) (Z.pos m)) as [q r] eqn:E.
  assert (Hq : q = (2 ^ 53)%Z).
  { change q with (fst (q, r)). rewrite <- E.
    change (fst (Z.div_eucl (Z.pos m * 2 ^ 53) (Z.pos m)))
      with (Z.pos m * 2 ^ 53 / Z.pos m)%Z.
    rewrite Z.mul_comm. now apply Z.div_mul. }
  assert (Hr : r = 0%Z).
  { change r with (snd (q, r)). rewrite <- E.
    change (snd (Z.div_eucl (Z.pos m * 2 ^ 53) (Z.pos m)))
      with ((Z.pos m * 2 ^ 53) mod Z.pos m)%Z.
    rewrite Z.mul_comm. now apply Z.mod_mul. }
  subst q r.
  assert (Hl : new_location (Z.pos m) 0 = loc_Exact).
  { unfold new_location. now destruct (Z.even (Z.pos m)). }
  rewrite Hl. reflexivity.
Qed.

Lemma div_diag (b : float) :
  (0 <? b) = true -> is_finite b = true -> b / b = 1.
Proof.
  intros Hp Hf. destruct (positive_finite b Hp Hf) as [m [e Hb]].
  apply Prim2SF_inj. rewrite div_spec, Hb. apply SFdiv_diag.
Qed.

End Binary64.

(** ** The aggregator *)

Section Aggregator.
Context {L : Library}.
Local Open Scope float_scope.

Lemma percent_used_cases (amount budget : float) :
  ((budget =? 0) = true -> percent_used amount budget = 0) /\
  ((0 <? budget) = true ->
   percent_used amount budget = round1 ((amount / budget) * 100)) /\
  ((0 <? budget) = true -> is_finite budget = true -> amount = budget ->
   percent_used amount budget = round1 100).
Proof.
  unfold percent_used. repeat split.
  - intros H. now rewrite (zero_not_positive budget H).
  - intros H. now rewrite H.
  - intros Hp Hf ->. rewrite Hp, (div_diag budget Hp Hf). reflexivity.
Qed.

Lemma category_totals_rows (b : Budgets) (debits_df : DataFrame) (t : Totals) :
  In t (category_totals b debits_df) ->
  tBudget t = get_default (tCategory t) 0 b /\
  tRemaining t = tBudget t - tAmount t /\
  tPercentUsed t = percent_used (tAmount t) (tBudget t).
Proof.
  unfold category_totals. intros H.
  apply in_map_iff in H as [ca [<- _]]. now repeat split.
Qed.

(** C4, as the code has it. In every row of the totals table, % Used is
    0.0 when the budget equals 0.0; when the budget is positive it is
    round(x, 1) of the binary64 number x = (amount / budget) * 100, the
    quotient taken first; and when the amount equals a positive finite
    budget it is round(100.0, 1), which is 100.0 as soon as round leaves
    100.0 alone. *)
Theorem percent_used_formula (b : Budgets) (debits_df : DataFrame) :
  Forall
    (fun t =>
       ((tBudget t =? 0) = true -> tPercentUsed t = 0) /\
       ((0 <? tBudget t) = true ->
        tPercentUsed t = round1 ((tAmount t / tBudget t) * 100)) /\
       ((0 <? tBudget t) = true -> is_finite (tBudget t) = true ->
        tAmount t = tBudget t -> round1 100 = 100 -> tPercentUsed t = 100))
    (category_totals b debits_df).
Proof.
  apply Forall_forall. intros t Hin.
  destruct (category_totals_rows b debits_df t Hin) as [_ [_ ->]].
  destruct (percent_used_cases (tAmount t) (tBudget t)) as [H0 [H1 H2]].
  repeat split; [exact H0|exact H1|].
  intros Hp Hf He Hr. now rewrite H2.
Qed.

End Aggregator.

(** Both roundings leave 100.0 alone. *)
Lemma round_hundred :
  @round1 Plain.python 100 = 100%float /\ @round1 Plain.numpy 100 = 100%float.
Proof. split; reflexivity. Qed.

(** C4 on a table whose only row has the whole budget of 80 spent: the
    premises of the third case hold and % Used is 100.0. *)
Lemma percent_used_formula_budget_spent :
  let table := @category_totals Plain.python [("Food", 80%float)]
                 (RangeIndex [Sample.debit "Food" 80]) in
  table <> [] /\
  Forall
    (fun t =>
       (0 <? tBudget t)%float = true /\ is_finite (tBudget t) = true /\
       tAmount t = tBudget t /\ @round1 Plain.python 100 = 100%float /\
       tPercentUsed t = 100%float)
    table.
Proof.
  cbv zeta. split; [discriminate|].
  pose proof (@percent_used_formula Plain.python [("Food", 80%float)]
                (RangeIndex [Sample.debit "Food" 80])) as H.
  rewrite Forall_forall in H. apply Forall_forall. intros t Hin.
  destruct (H t Hin) as [_ [_ Ht]].
  assert (E : t = {| tCategory := "Food"; tAmount := 80; tBudget := 80;
                     tRemaining := 0; tPercentUsed := 100 |}).
  { vm_compute in Hin. now destruct Hin as [<-|[]]. }
  assert (Hp : (0 <? tBudget t)%float = true) by now rewrite E.
  assert (Hf : is_finite (tBudget t) = true) by now rewrite E.
  assert (He : tAmount t = tBudget t) by now rewrite E.
  exact (conj Hp (conj Hf (conj He (conj eq_refl (Ht Hp Hf He eq_refl))))).
Defined.

(** C4, as stated, fails: with 23 spent of a budget of 80 the code rounds
    (23 / 80) * 100 = 28.749999999999996 to 28.7, whereas
    round(100 * 23 / 80, 1) = round(28.75, 1) is 28.8; so it is with Python's
    rounding and with numpy's. *)
Lemma percent_used_order_of_operations :
  (@percent_used Plain.python 23 80 = 28.7 /\
   @round1 Plain.python (100 * 23 / 80) = 28.8 /\
   @percent_used Plain.numpy 23 80 = 28.7 /\
   @round1 Plain.numpy (100 * 23 / 80) = 28.8 /\
   28.7 <> 28.8)%float /\
  map tPercentUsed
      (@category_totals Plain.python [("Food", 80%float)]
         (RangeIndex [Sample.debit "Food" 23]))
  = [28.7%float].
Proof.
  repeat split. now apply float_neq_by_eqb.
Qed.

(** ** Grouping *)

Lemma ascii_compare_refl (a : ascii) : Ascii.compare a a = Eq.
Proof.
  pose proof (Ascii.compare_antisym a a) as H.
  destruct (Ascii.compare a a); simpl in H; congruence.
Qed.

Lemma ascii_compare_lt_trans (a b c : ascii) :
  Ascii.compare a b = Lt -> Ascii.compare b c = Lt -> Ascii.compare a c = Lt.
Proof.
  unfold Ascii.compare. rewrite !N.compare_lt_iff. apply N.lt_trans.
Qed.

Lemma precedes_trans (a b c : string) : precedes a b -> precedes b c -> precedes a c.
Proof.
  unfold precedes. revert b c.
  induction a as [|x a IH]; intros [|y b] [|z c]; simpl;
    try discriminate; try reflexivity.
  destruct (Ascii.compare x y) eqn:E1; destruct (Ascii.compare y z) eqn:E2;
    try discriminate.
  - apply Ascii.compare_eq_iff in E1, E2. subst.
    rewrite ascii_compare_refl. apply IH.
  - apply Ascii.compare_eq_iff in E1. subst. now rewrite E2.
  - apply Ascii.compare_eq_iff in E2. subst. now rewrite E1.
  - now rewrite (ascii_compare_lt_trans x y z E1 E2).
Qed.

Lemma precedes_irrefl (a : string) : ~ precedes a a.
Proof.
  unfold precedes. pose proof (String.compare_antisym a a) as H.
  destruct (String.compare a a); simpl in H; congruence.
Qed.

Lemma sorted_keys_unique (ks : list string) :
  StronglySorted precedes ks -> NoDup ks.
Proof.
  induction 1 as [|k ks Hs IH Hk]; constructor; [|exact IH].
  intros Hin. rewrite Forall_forall in Hk.
  exact (precedes_irrefl k (Hk k Hin)).
Qed.

Section Grouping.
Context {L : Library}.

Lemma group_insert_keys (k : string) (x : float)
    (groups : list (string * list float)) (k' : string) :
  In k' (map fst (group_insert k x groups)) -> k' = k \/ In k' (map fst groups).
Proof.
  induction groups as [|[k0 xs] groups IH]; simpl.
  - intros [H|[]]. now left.
  - destruct (String.compare k k0); simpl.
    + tauto.
    + intros [H|H]; [now left|now right].
    + intros [H|H]; [now right; left|].
      destruct (IH H) as [H'|H']; [now left|now right; right].
Qed.

Lemma group_insert_sorted (k : string) (x : float)
    (groups : list (string * list float)) :
  StronglySorted precedes (map fst groups) ->
  StronglySorted precedes (map fst (group_insert k x groups)).
Proof.
  induction groups as [|[k0 xs] groups IH]; simpl; intros Hs.
  - repeat constructor.
  - inversion Hs as [|? ? Hs' Hk]; subst.
    destruct (String.compare k k0) eqn:E; simpl.
    + now constructor.
    + constructor; [exact Hs|]. constructor; [exact E|].
      eapply Forall_impl; [|exact Hk]. intros a. now apply precedes_trans.
    + constructor; [now apply IH|].
      apply Forall_forall. intros a Ha.
      destruct (group_insert_keys _ _ _ _ Ha) as [->|Ha'].
      * unfold precedes. rewrite String.compare_antisym, E. reflexivity.
      * rewrite Forall_forall in Hk. now apply Hk.
Qed.

Lemma groupby_sorted (df : DataFrame) :
  StronglySorted precedes (map fst (groupby_Category df)).
Proof.
  unfold groupby_Category.
  assert (H : forall (df : DataFrame) (groups : list (string * list float)),
             StronglySorted precedes (map fst groups) ->
             StronglySorted precedes
               (map fst (fold_left
                           (fun g ir => group_insert (Category (snd ir))
                                                     (Amount (snd ir)) g)
                           df groups))).
  { clear df. induction df as [|ir df IH]; intros groups Hs; simpl; [exact Hs|].
    apply IH. now apply group_insert_sorted. }
  apply H. constructor.
Qed.

Lemma group_insert_amounts (k : string) (x : float)
    (groups : list (string * list float)) :
  Permutation (List.concat (map snd (group_insert k x groups)))
              (x :: List.concat (map snd groups)).
Proof.
  induction groups as [|[k0 xs] groups IH]; simpl; [reflexivity|].
  destruct (String.compare k k0); simpl.
  - rewrite <- app_assoc. simpl. symmetry. apply Permutation_middle.
  - reflexivity.
  - rewrite IH. symmetry. apply Permutation_middle.
Qed.

Lemma groupby_amounts (df : DataFrame) :
  Permutation (List.concat (map snd (groupby_Category df))) (amounts df).
Proof.
  unfold groupby_Category, amounts.
  assert (H : forall (df : DataFrame) (groups : list (string * list float)),
             Permutation
               (List.concat (map snd (fold_left
                                   (fun g ir => group_insert (Category (snd ir))
                                                             (Amount (snd ir)) g)
                                   df groups)))
               (List.concat (map snd groups) ++ map (fun ir => Amount (snd ir)) df)).
  { clear df. induction df as [|ir df IH]; intros groups; simpl.
    - now rewrite app_nil_r.
    - rewrite IH, group_insert_amounts. simpl. apply Permutation_middle. }
  apply (H df []).
Qed.

Lemma insert_desc_perm (x : string * float) (l : list (string * float)) :
  Permutation (insert_desc x l) (x :: l).
Proof.
  induction l as [|y l IH]; simpl; [reflexivity|].
  destruct (PrimFloat.ltb (snd y) (snd x)); [reflexivity|].
  rewrite IH. apply perm_swap.
Qed.

Lemma sort_values_desc_perm (l : list (string * float)) :
  Permutation (sort_values_desc l) l.
Proof.
  unfold sort_values_desc.
  assert (H : forall l acc,
             Permutation (fold_left (fun acc x => insert_desc x acc) l acc)
                         (acc ++ l)).
  { clear l. induction l as [|x l IH]; intros acc; simpl.
    - now rewrite app_nil_r.
    - rewrite IH, insert_desc_perm. simpl. apply Permutation_middle. }
  apply (H l []).
Qed.

Lemma category_totals_amounts (b : Budgets) (df : DataFrame) :
  map (fun t => (tCategory t, tAmount t)) (category_totals b df)
  = sort_values_desc (grouped_sums df).
Proof.
  unfold category_totals. rewrite map_map.
  erewrite map_ext; [apply map_id|]. now intros [c a].
Qed.

End Grouping.

Lemma Qsum_app (l l' : list Q) : (Num.Qsum (l ++ l') == Num.Qsum l + Num.Qsum l')%Q.
Proof.
  induction l as [|q l IH]; simpl.
  - now rewrite Qplus_0_l.
  - rewrite IH. apply Qplus_assoc.
Qed.

Lemma Qsum_perm (l l' : list Q) :
  Permutation l l' -> (Num.Qsum l == Num.Qsum l')%Q.
Proof.
  induction 1 as [|x l l' _ IH|x y l|l l' l'' _ IH1 _ IH2]; simpl.
  - reflexivity.
  - now rewrite IH.
  - rewrite !Qplus_assoc. now rewrite (Qplus_comm y x).
  - now rewrite IH1.
Qed.

Section Conservation.
Context {L : Library}.

Lemma Qsum_groups (groups : list (string * list float)) :
  (forall g, In g groups ->
             (Num.exact (group_sum (snd g)) == Num.Qsum (map Num.exact (snd g)))%Q) ->
  (Num.Qsum (map Num.exact (map (fun g => group_sum (snd g)) groups))
   == Num.Qsum (map Num.exact (List.concat (map snd groups))))%Q.
Proof.
  induction groups as [|g groups IH]; intros H; simpl; [reflexivity|].
  pose proof (H g (or_introl eq_refl)) as Hg.
  pose proof (IH (fun g' Hg' => H g' (or_intror Hg'))) as IH'.
  rewrite map_app, Qsum_app, Hg, IH'. reflexivity.
Qed.

(** C5, as the code has it. The grouped table has one group per category;
    every debit row is counted in exactly one group (the amounts of the
    groups are a rearrangement of the amounts of the rows); the rows of the
    totals table are the groups with their sums, in some order. Hence the
    sum of the totals equals the sum of the debit amounts whenever each
    group's sum was computed without rounding. *)
Theorem aggregation_conserves_rows (b : Budgets) (debits_df : DataFrame) :
  let groups := groupby_Category debits_df in
  let table := category_totals b debits_df in
  NoDup (map fst groups) /\
  Permutation (List.concat (map snd groups)) (amounts debits_df) /\
  Permutation (map (fun t => (tCategory t, tAmount t)) table)
              (map (fun g => (fst g, group_sum (snd g))) groups) /\
  ((forall g, In g groups ->
              (Num.exact (group_sum (snd g))
               == Num.Qsum (map Num.exact (snd g)))%Q) ->
   (Num.Qsum (map Num.exact (map tAmount table))
    == Num.Qsum (map Num.exact (amounts debits_df)))%Q).
Proof.
  cbv zeta.
  assert (Ht : Permutation
                 (map (fun t => (tCategory t, tAmount t))
                      (category_totals b debits_df))
                 (map (fun g => (fst g, group_sum (snd g)))
                      (groupby_Category debits_df))).
  { rewrite category_totals_amounts. apply sort_values_desc_perm. }
  split; [apply sorted_keys_unique, groupby_sorted|].
  split; [apply groupby_amounts|].
  split; [exact Ht|].
  intros Hexact.
  apply (Permutation_map snd) in Ht. rewrite !map_map in Ht. simpl in Ht.
  rewrite (Qsum_perm _ _ (Permutation_map Num.exact Ht)).
  rewrite (Qsum_groups _ Hexact).
  apply Qsum_perm, Permutation_map, groupby_amounts.
Qed.

End Conservation.

(** C5 on amounts whose sums are exact: 4.5 and 2.0 in "A", 3.25 in "B". *)
Lemma aggregation_conserves_exact_rows :
  let debits_df := RangeIndex [Sample.debit "A" 4.5; Sample.debit "B" 3.25;
                               Sample.debit "A" 2] in
  let table := @category_totals Plain.python [] debits_df in
  (forall g, In g (groupby_Category debits_df) ->
             (Num.exact (@group_sum Plain.python (snd g))
              == Num.Qsum (map Num.exact (snd g)))%Q) /\
  map (fun t => (tCategory t, tAmount t)) table
  = [("A", 6.5%float); ("B", 3.25%float)] /\
  (Num.Qsum (map Num.exact (map tAmount table))
   == Num.Qsum (map Num.exact (amounts debits_df)))%Q.
Proof.
  cbv zeta.
  assert (H : forall g,
             In g (groupby_Category
                     (RangeIndex [Sample.debit "A" 4.5; Sample.debit "B" 3.25;
                                  Sample.debit "A" 2])) ->
             (Num.exact (@group_sum Plain.python (snd g))
              == Num.Qsum (map Num.exact (snd g)))%Q).
  { intros g Hin. vm_compute in Hin.
    destruct Hin as [<-|[<-|[]]]; vm_compute; reflexivity. }
  split; [exact H|]. split; [reflexivity|].
  exact (proj2 (proj2 (proj2 (@aggregation_conserves_rows Plain.python [] _))) H).
Defined.

(** C5, as stated, fails: for the debits 0.1 and 0.4 in "A" and 0.1 in "B"
    the totals are 0.5 and 0.1; their sum is 0.6, the sum of the three
    amounts is 0.6000000000000001, and the exact values of the two sides
    differ as well. *)
Lemma aggregation_sums_differ :
  let debits_df := RangeIndex [Sample.debit "A" 0.1; Sample.debit "B" 0.1;
                               Sample.debit "A" 0.4] in
  let python := map tAmount (@category_totals Plain.python [] debits_df) in
  let numpy := map tAmount (@category_totals Plain.numpy [] debits_df) in
  python = [0.5%float; 0.1%float] /\
  numpy = [0.5%float; 0.1%float] /\
  ~ (Num.Qsum (map Num.exact python)
     == Num.Qsum (map Num.exact (amounts debits_df)))%Q /\
  @series_sum Plain.python python <> @series_sum Plain.python (amounts debits_df) /\
  @series_sum Plain.numpy numpy <> @series_sum Plain.numpy (amounts debits_df).
Proof.
  cbv zeta. split; [reflexivity|]. split; [reflexivity|].
  split; [|split].
  - intros H. vm_compute in H. discriminate H.
  - now apply float_neq_by_eqb.
  - now apply float_neq_by_eqb.
Qed.

(* ================================================================== *)
(** * Further properties of the code *)
(* ================================================================== *)

(** ** Trimming and lowercasing *)

Lemma isspace_lower_char (c : ascii) :
  Str.isspace (Str.lower_char c) = Str.isspace c.
Proof. destruct c as [[] [] [] [] [] [] [] []]; reflexivity. Qed.

Lemma lstrip_lower (s : string) : Str.lstrip (Str.lower s) = Str.lower (Str.lstrip s).
Proof.
  induction s as [|c s IH]; simpl; [reflexivity|].
  rewrite isspace_lower_char. now destruct (Str.isspace c).
Qed.

Lemma rstrip_lower (s : string) : Str.rstrip (Str.lower s) = Str.lower (Str.rstrip s).
Proof.
  induction s as [|c s IH]; simpl; [reflexivity|].
  rewrite IH, isspace_lower_char.
  destruct (Str.rstrip s); simpl; [|reflexivity].
  now destruct (Str.isspace c).
Qed.

Lemma strip_lower (s : string) : Str.strip (Str.lower s) = Str.lower (Str.strip s).
Proof. unfold Str.strip. now rewrite lstrip_lower, rstrip_lower. Qed.

Lemma length_lower (s : string) : String.length (Str.lower s) = String.length s.
Proof. induction s as [|c s IH]; simpl; [reflexivity|now rewrite IH]. Qed.

Lemma lstrip_shorter (s : string) :
  Str.lstrip s = s \/ String.length (Str.lstrip s) < String.length s.
Proof.
  induction s as [|c s IH]; simpl; [now left|].
  destruct (Str.isspace c); [|now left].
  right. destruct IH as [->|H]; lia.
Qed.

Lemma rstrip_shorter (s : string) :
  Str.rstrip s = s \/ String.length (Str.rstrip s) < String.length s.
Proof.
  induction s as [|c s IH]; simpl; [now left|].
  destruct IH as [E|H].
  - rewrite E. destruct s; [|now left].
    destruct (Str.isspace c); [right; simpl; lia|now left].
  - right. destruct (Str.rstrip s); simpl in *; [|lia].
    destruct (Str.isspace c); simpl; lia.
Qed.

Lemma strip_same_length (s : string) :
  String.length (Str.strip s) = String.length s -> Str.strip s = s.
Proof.
  unfold Str.strip. intros H.
  destruct (lstrip_shorter s) as [E|Hl].
  - rewrite E in *. destruct (rstrip_shorter s) as [E'|Hr]; [exact E'|lia].
  - destruct (rstrip_shorter (Str.lstrip s)) as [E'|Hr]; [rewrite E' in H|]; lia.
Qed.

(** A lowered keyword of the categoriser is trimmed; a detail that equals
    one is trimmed too. *)
Lemma matching_detail_trimmed (details : string) (keywords : list string) :
  Str.mem (Str.lower details) (lowered_keywords keywords) = true ->
  Str.strip details = details.
Proof.
  intros H. apply mem_In in H. unfold lowered_keywords in H.
  apply in_map_iff in H as [k [Hk _]].
  apply strip_same_length. rewrite <- (length_lower (Str.strip details)).
  rewrite <- strip_lower, <- Hk, strip_idempotent, Hk. apply length_lower.
Qed.

(** ** The categoriser, further *)

Lemma categorize_with_columns (c : string) (lowered : list string) (df : DataFrame) :
  map other_columns (categorize_with c lowered df) = map other_columns df.
Proof.
  unfold categorize_with. rewrite categorize_visited, map_map.
  apply map_ext. intros [i r]. now destruct (existsb _ df).
Qed.

(** X1. [categorize_transactions] writes the [Category] column and nothing
    else: on any frame and with any store, the rows, their order, their
    index labels and the columns Date, Details, Amount and Debit/Credit come
    back as they went in. *)
Theorem categorize_keeps_other_columns (cats : Categories) (df : DataFrame) :
  map other_columns (categorize_transactions cats df) = map other_columns df.
Proof.
  unfold categorize_transactions, categorize_loop, items.
  transitivity (map other_columns (assign_Category Uncategorized df)).
  - generalize (assign_Category Uncategorized df) as d.
    induction cats as [|[c kws] cats IH]; intros d; simpl; [reflexivity|].
    rewrite IH. destruct (skipped c kws); [reflexivity|].
    apply categorize_with_columns.
  - unfold assign_Category. rewrite map_map. now apply map_ext.
Qed.

(** X2. The keywords are trimmed before the comparison and the detail is
    not: a row whose detail text begins or ends with white space matches no
    keyword and is left "Uncategorized", whatever the store holds. *)
Theorem untrimmed_detail_uncategorized (cats : Categories) (rows : list Row) :
  Forall
    (fun ir => Str.strip (Details (snd ir)) <> Details (snd ir) ->
               Category (snd ir) = Uncategorized)
    (categorize_transactions cats (RangeIndex rows)).
Proof.
  rewrite categorize_transactions_rows by apply RangeIndex_unique.
  apply Forall_forall. intros ir Hin.
  apply in_map_iff in Hin as [[i r] [<- _]].
  unfold categorized. simpl. intros Hne. rewrite assigned_last.
  destruct (find (entry_matches (Details r)) (rev cats)) as [ck|] eqn:Hf;
    [|reflexivity].
  apply find_some in Hf as [_ Hm]. apply andb_prop in Hm as [_ Hm].
  exfalso. apply Hne. now apply (matching_detail_trimmed _ (snd ck)).
Qed.

(** A detail with a trailing space against the keyword it would teach. *)
Lemma untrimmed_detail_uncategorized_row :
  let cats := [(Uncategorized, []); ("Food", ["Coffee Shop"])] in
  let rows := [{| Date := {| year := 2024; month := 1; day := 1 |};
                  Details := "Coffee Shop "; Amount := 4.5%float;
                  DebitCredit := "Debit"; Category := EmptyString |}] in
  Str.strip "Coffee Shop " <> "Coffee Shop " /\
  Forall (fun ir => Category (snd ir) = Uncategorized)
         (categorize_transactions cats (RangeIndex rows)).
Proof.
  cbv zeta. split; [discriminate|].
  apply Forall_forall. intros ir Hin.
  pose proof (untrimmed_detail_uncategorized
                [(Uncategorized, []); ("Food", ["Coffee Shop"])]
                [{| Date := {| year := 2024; month := 1; day := 1 |};
                    Details := "Coffee Shop "; Amount := 4.5%float;
                    DebitCredit := "Debit"; Category := EmptyString |}]) as H.
  rewrite Forall_forall in H. apply (H ir Hin).
  vm_compute in Hin. destruct Hin as [<-|[]]. discriminate.
Defined.

Lemma set_In {V : Type} (k : string) (v : V) (d : dict V) : In (k, v) (set k v d).
Proof.
  induction d as [|[k' v'] d IH]; simpl; [now left|].
  destruct (String.eqb k k') eqn:E; [|now right].
  apply String.eqb_eq in E. subst. now left.
Qed.

Lemma set_In_inv {V : Type} (k : string) (v : V) (d : dict V) (kv : string * V) :
  In kv (set k v d) -> kv = (k, v) \/ In kv d.
Proof.
  induction d as [|[k' v'] d IH]; simpl.
  - intros [H|[]]. now left.
  - destruct (String.eqb k k') eqn:E; simpl.
    + apply String.eqb_eq in E. subst. intros [H|H]; [now left|now right; right].
    + intros [H|H]; [now right; left|]. destruct (IH H); [now left|now right; right].
Qed.

Lemma get_In {V : Type} (k : string) (v : V) (d : dict V) :
  get k d = Some v -> In (k, v) d.
Proof.
  induction d as [|[k' v'] d IH]; simpl; [discriminate|].
  destruct (String.eqb k k') eqn:E; [|now right; apply IH].
  apply String.eqb_eq in E. subst. intros [= ->]. now left.
Qed.

(** What a call that returns True has done. *)
Lemma add_keyword_true (category keyword : string) (st st' : State) :
  add_keyword_to_category category keyword st = (Ok true, st') ->
  exists kws,
    get category (categories st) = Some kws /\
    Str.strip keyword <> EmptyString /\
    ~ In (Str.strip keyword) kws /\
    st' = save_categories
            (with_categories
               (set category (kws ++ [Str.strip keyword]) (categories st)) st).
Proof.
  unfold add_keyword_to_category.
  destruct (Str.strip keyword) as [|a k] eqn:Ek; simpl; [discriminate|].
  destruct (get category (categories st)) as [kws|]; [|discriminate].
  destruct (Str.mem (String a k) kws) eqn:Hm; simpl; [discriminate|].
  intros [= <-]. exists kws. repeat split; try discriminate.
  intros Hin. apply mem_In in Hin. congruence.
Qed.

(** X3. Learning takes effect at once: after [add_keyword_to_category] has
    returned True for a category other than "Uncategorized", the categoriser,
    run with the new store, no longer leaves "Uncategorized" any row whose
    lowercased detail equals the lowercased, trimmed keyword; the row gets
    the learning category itself whenever no other category matches it. *)
Theorem learning_takes_effect (category keyword : string) (st st' : State)
    (rows : list Row) :
  add_keyword_to_category category keyword st = (Ok true, st') ->
  category <> Uncategorized ->
  Forall
    (fun ir =>
       Str.lower (Details (snd ir)) = Str.lower (Str.strip keyword) ->
       Category (snd ir) <> Uncategorized /\
       ((forall ck, In ck (items (categories st')) ->
                    entry_matches (Details (snd ir)) ck = true ->
                    fst ck = category) ->
        Category (snd ir) = category))
    (categorize_transactions (categories st') (RangeIndex rows)).
Proof.
  intros Hadd Hne.
  apply add_keyword_true in Hadd as [kws [Hget [Hk [Hnin ->]]]]. simpl.
  rewrite categorize_transactions_rows by apply RangeIndex_unique.
  apply Forall_forall. intros ir Hin.
  apply in_map_iff in Hin as [[i r] [<- _]].
  unfold categorized. simpl. intros Hd. rewrite assigned_last.
  set (cats' := set category (kws ++ [Str.strip keyword]) (categories st)).
  assert (Hm : entry_matches (Details r)
                 (category, kws ++ [Str.strip keyword]) = true).
  { unfold entry_matches, skipped. simpl.
    apply String.eqb_neq in Hne. rewrite Hne. simpl.
    destruct (kws ++ [Str.strip keyword]) eqn:E;
      [now destruct kws|rewrite <- E; clear E]. simpl.
    apply mem_In. unfold lowered_keywords. rewrite map_app. apply in_or_app.
    right. simpl. left. now rewrite strip_lower, strip_idempotent. }
  destruct (find (entry_matches (Details r)) (rev cats')) as [ck|] eqn:Hf.
  - apply find_some in Hf as [Hin Hck]. apply in_rev in Hin. split.
    + apply andb_prop in Hck as [Hs _]. unfold skipped in Hs.
      apply negb_true_iff, orb_false_elim in Hs as [Hs _].
      now apply String.eqb_neq in Hs.
    + intros Hall. now apply Hall.
  - assert (Hin : In (category, kws ++ [Str.strip keyword]) (rev cats')).
    { apply -> in_rev. apply set_In. }
    pose proof (find_none _ _ Hf _ Hin) as Hn. congruence.
Qed.

(** "Food" learns " Coffee Shop " and the row "COFFEE SHOP" moves to it. *)
Lemma learning_takes_effect_food :
  let st := with_categories [(Uncategorized, []); ("Food", [])]
                            (startup fresh_world) in
  let st' := snd (add_keyword_to_category "Food" " Coffee Shop " st) in
  let row := {| Date := {| year := 2024; month := 1; day := 1 |};
                Details := "COFFEE SHOP"; Amount := 4.5%float;
                DebitCredit := "Debit"; Category := EmptyString |} in
  add_keyword_to_category "Food" " Coffee Shop " st = (Ok true, st') /\
  "Food" <> Uncategorized /\
  Forall (fun ir => Category (snd ir) = "Food")
         (categorize_transactions (categories st') (RangeIndex [row])).
Proof.
  cbv zeta. split; [reflexivity|]. split; [discriminate|].
  apply Forall_forall. intros ir Hin.
  pose proof (learning_takes_effect "Food" " Coffee Shop "
                (with_categories [(Uncategorized, []); ("Food", [])]
                                 (startup fresh_world))
                _ [{| Date := {| year := 2024; month := 1; day := 1 |};
                      Details := "COFFEE SHOP"; Amount := 4.5%float;
                      DebitCredit := "Debit"; Category := EmptyString |}]
                eq_refl ltac:(discriminate)) as H.
  rewrite Forall_forall in H. specialize (H ir Hin).
  vm_compute in Hin. destruct Hin as [<-|[]].
  destruct (H eq_refl) as [_ H'].
  apply H'. intros ck [<-|[<-|[]]]; [discriminate|reflexivity].
Defined.

(** X4. The keywords of "Uncategorized" are never consulted: replacing its
    keyword list by any other leaves the result of the categoriser, on any
    frame, as it was. *)
Theorem uncategorized_keywords_ignored (cats : Categories) (keywords : list string)
    (df : DataFrame) :
  categorize_transactions (set Uncategorized keywords cats) df
  = categorize_transactions cats df.
Proof.
  unfold categorize_transactions, categorize_loop, items.
  generalize (assign_Category Uncategorized df) as d.
  set (step := fun (d : DataFrame) (ck : string * list string) =>
                 if skipped (fst ck) (snd ck) then d
                 else categorize_with (fst ck) (lowered_keywords (snd ck)) d).
  induction cats as [|[c kws] cats IH]; intros d; cbn [set fold_left];
    [reflexivity|].
  destruct (String.eqb Uncategorized c) eqn:E; cbn [fold_left].
  - apply String.eqb_eq in E. subst c. reflexivity.
  - apply IH.
Qed.

(** X5. A category that has just been added changes no classification: the
    categoriser gives the same result with the store before and after the
    add-category handler, on any frame. *)
Theorem add_category_keeps_classification (b : bool) (name : string) (st : State)
    (df : DataFrame) :
  categorize_transactions (categories (fst (add_category b name st))) df
  = categorize_transactions (categories st) df.
Proof.
  unfold add_category.
  destruct (b && Str.truthy name); [|reflexivity].
  destruct (contains name (categories st)) eqn:Hc; simpl; [reflexivity|].
  apply contains_get in Hc. rewrite (set_fresh _ _ _ Hc).
  unfold categorize_transactions, categorize_loop, items.
  rewrite fold_left_app. simpl. unfold skipped. simpl.
  now rewrite orb_true_r.
Qed.

(** X6. No duplicate is learnt: when [add_keyword_to_category] has returned
    without raising, the same call on the resulting store returns False and
    changes nothing. *)
Theorem add_keyword_twice (category keyword : string) (st st1 : State) (b : bool) :
  add_keyword_to_category category keyword st = (Ok b, st1) ->
  add_keyword_to_category category keyword st1 = (Ok false, st1).
Proof.
  unfold add_keyword_to_category.
  destruct (Str.truthy (Str.strip keyword)); [|now intros [= <- <-]].
  destruct (get category (categories st)) as [kws|] eqn:Hg; [|discriminate].
  destruct (Str.mem (Str.strip keyword) kws) eqn:Hm; simpl.
  - intros [= <- <-]. now rewrite Hg, Hm.
  - intros [= <- <-]. simpl. rewrite get_set_same.
    assert (Hin : Str.mem (Str.strip keyword) (kws ++ [Str.strip keyword]) = true).
    { apply mem_In, in_or_app. right. now left. }
    now rewrite Hin.
Qed.

(** The second call after "Food" has learnt "tea". *)
Lemma add_keyword_twice_tea :
  let st := with_categories [(Uncategorized, []); ("Food", ["coffee"])]
                            (startup fresh_world) in
  let st1 := snd (add_keyword_to_category "Food" "tea" st) in
  add_keyword_to_category "Food" "tea" st = (Ok true, st1) /\
  add_keyword_to_category "Food" "tea" st1 = (Ok false, st1).
Proof.
  cbv zeta. split; [reflexivity|].
  apply (add_keyword_twice "Food" "tea"
           (with_categories [(Uncategorized, []); ("Food", ["coffee"])]
                            (startup fresh_world)) _ true).
  reflexivity.
Defined.

(** ** How the stores change *)

Lemma evolves_trans (a b c : Categories) : evolves a b -> evolves b c -> evolves a c.
Proof.
  intros Hab Hbc. induction Hbc; [exact Hab| |].
  - now apply evolves_add; [apply IHHbc| |].
  - now apply evolves_learn; [apply IHHbc| | | |].
Qed.

Section Evolution.
Context {L : Library}.

Lemma add_keyword_evolves (category keyword : string) (st : State) :
  let st' := snd (add_keyword_to_category category keyword st) in
  evolves (categories st) (categories st') /\
  (saved st -> saved st') /\
  budgets st' = budgets st /\
  budget_file (files st') = budget_file (files st).
Proof.
  cbv zeta. unfold add_keyword_to_category.
  destruct (Str.strip keyword) as [|a k] eqn:Ek; simpl;
    [repeat split; [constructor|trivial]|].
  destruct (get category (categories st)) as [kws|] eqn:Hg;
    [|repeat split; [constructor|trivial]].
  destruct (Str.mem (String a k) kws) eqn:Hm; simpl;
    [repeat split; [constructor|trivial]|].
  repeat split.
  - apply evolves_learn; [constructor|exact Hg|discriminate| |].
    + rewrite <- Ek. apply strip_idempotent.
    + intros Hin. apply mem_In in Hin. congruence.
  - intros _. now right.
Qed.

Lemma add_category_evolves (b : bool) (name : string) (st : State) :
  let st' := fst (add_category b name st) in
  evolves (categories st) (categories st') /\ (saved st -> saved st').
Proof.
  cbv zeta. unfold add_category.
  destruct (b && Str.truthy name) eqn:Hb; [|split; [constructor|trivial]].
  destruct (contains name (categories st)) eqn:Hc; simpl;
    [split; [constructor|trivial]|].
  split; [|intros _; now right].
  apply evolves_add; [constructor| |now apply contains_get].
  apply andb_prop in Hb as [_ Hb]. now destruct name.
Qed.

Lemma apply_changes_evolves (edited : list (nat * Expense)) (st : State)
    (debits : DataFrame) :
  let st' := snd (fst (apply_changes edited st debits)) in
  evolves (categories st) (categories st') /\
  (saved st -> saved st') /\
  budgets st' = budgets st /\
  budget_file (files st') = budget_file (files st).
Proof.
  cbv zeta. revert st debits.
  induction edited as [|[idx row] edited IH]; intros st debits; simpl;
    [repeat split; [constructor|trivial]|].
  destruct (at_Category idx debits) as [old|];
    [|repeat split; [constructor|trivial]].
  destruct (String.eqb (eCategory row) old); [apply IH|].
  pose proof (add_keyword_evolves (eCategory row) (eDetails row) st)
    as [He [Hs [Hb Hf]]].
  destruct (add_keyword_to_category (eCategory row) (eDetails row) st)
    as [[b|e] st1]; simpl in *; [|now repeat split].
  destruct (IH st1 (at_set_Category idx (eCategory row) debits))
    as [He' [Hs' [Hb' Hf']]].
  repeat split.
  - now apply (evolves_trans _ (categories st1)).
  - intros H. now apply Hs', Hs.
  - now rewrite Hb'.
  - now rewrite Hf'.
Qed.

(** The state of [main] when it returns, against the state it was given. *)
Lemma main_evolves (ui : UI) (st : State) :
  let st' := snd (fst (main ui st)) in
  evolves (categories st) (categories st') /\ (saved st -> saved st').
Proof.
  cbv zeta. unfold main.
  destruct (uploaded_file ui) as [file|]; [|split; [constructor|trivial]].
  destruct (load_transactions (categories st) file) as [[df|] errors];
    [|split; [constructor|trivial]].
  pose proof (add_category_evolves (add_button ui) (new_category ui) st)
    as [He1 Hs1].
  destruct (add_category (add_button ui) (new_category ui) st) as [st1 [|]];
    simpl in He1, Hs1; [now split|].
  destruct (budget_inputs_categories (number_input ui) st1) as [Hc Hf].
  destruct (budget_inputs (number_input ui) st1) as [st2 inputs].
  simpl in Hc, Hf.
  assert (He2 : evolves (categories st) (categories st2)) by now rewrite Hc.
  assert (Hs2 : saved st -> saved st2).
  { intros H. apply Hs1 in H. unfold saved in *. now rewrite Hc, Hf. }
  set (edited := map _ (expense_grid _)).
  destruct (save_budgets_button ui); destruct (apply_button ui);
    try (now split).
  - pose proof (apply_changes_evolves edited (save_budgets st2)
                  (polarity "Debit" df)) as [He [Hs _]].
    destruct (apply_changes edited (save_budgets st2) _) as [[[e|] st4] d];
      simpl in *; (split; [now apply (evolves_trans _ (categories st2))|]);
      intros H; apply Hs; apply Hs2 in H; exact H.
  - pose proof (apply_changes_evolves edited st2 (polarity "Debit" df))
      as [He [Hs _]].
    destruct (apply_changes edited st2 _) as [[[e|] st4] d];
      simpl in *; (split; [now apply (evolves_trans _ (categories st2))|]);
      intros H; apply Hs; apply Hs2 in H; exact H.
Qed.

Lemma startup_saved (w : World) : saved (startup w).
Proof.
  unfold saved, startup. simpl.
  destruct (category_file (disk w)); [now right|now left].
Qed.

Lemma startup_world_of (st : State) :
  saved st -> categories (startup (world_of st)) = categories st.
Proof.
  unfold saved, startup, world_of. simpl. now intros [->| ->].
Qed.

(** X7. What a run leaves in the Category Store is what the next run
    starts with, whatever the world the run began in: every change of the
    store reaches the category document before the run ends. *)
Theorem category_store_round_trip (ui : UI) (w : World) :
  categories (startup (snd (fst (run ui w))))
  = categories (snd (fst (main ui (startup w)))).
Proof.
  unfold run.
  destruct (main_evolves ui (startup w)) as [_ Hs].
  specialize (Hs (startup_saved w)).
  destruct (main ui (startup w)) as [[o st] out]. simpl in *.
  now apply startup_world_of.
Qed.

Lemma runs_evolves (uis : list UI) (w : World) :
  evolves (categories (startup w)) (categories (startup (runs uis w))).
Proof.
  unfold runs. revert w. induction uis as [|ui uis IH]; intros w;
    cbn [fold_left]; [constructor|].
  apply (evolves_trans _ (categories (startup (snd (fst (run ui w)))))); [|apply IH].
  assert (E : categories (startup (snd (fst (run ui w))))
              = categories (snd (fst (main ui (startup w))))).
  { unfold run. destruct (main_evolves ui (startup w)) as [_ Hs].
    specialize (Hs (startup_saved w)).
    destruct (main ui (startup w)) as [[o st] out]. simpl in *.
    now apply startup_world_of. }
  rewrite E. exact (proj1 (main_evolves ui (startup w))).
Qed.

End Evolution.

Lemma evolves_grows (cats cats' : Categories) :
  evolves cats cats' ->
  (exists more, keys cats' = keys cats ++ more) /\
  (forall c kws, get c cats = Some kws ->
                 exists more, get c cats' = Some (kws ++ more)).
Proof.
  induction 1 as [cats|cats cats' name _ [[more Hk] Hg] Hne Hfresh
                 |cats cats' category keyword keywords _ [[more Hk] Hg] Hget _ _ _].
  - split; [exists []; now rewrite app_nil_r|].
    intros c kws H. exists []. now rewrite app_nil_r.
  - split.
    + exists (more ++ [name]). rewrite (set_fresh _ _ _ Hfresh).
      unfold keys in *. now rewrite map_app, Hk, app_assoc.
    + intros c kws H. destruct (Hg c kws H) as [m Hm]. exists m.
      rewrite get_set_other; [exact Hm|]. intros ->. congruence.
  - split.
    + exists more. rewrite keys_set_present; [exact Hk|].
      unfold contains. now rewrite Hget.
    + intros c kws H. destruct (Hg c kws H) as [m Hm].
      destruct (String.eqb c category) eqn:E.
      * apply String.eqb_eq in E. subst c. rewrite Hget in Hm.
        injection Hm as ->. exists (m ++ [keyword]).
        now rewrite get_set_same, app_assoc.
      * apply String.eqb_neq in E. exists m. now rewrite get_set_other.
Qed.

Lemma evolves_clean (cats cats' : Categories) :
  evolves cats cats' -> keywords_clean cats -> keywords_clean cats'.
Proof.
  induction 1 as [cats|cats cats' name _ IH _ _
                 |cats cats' category keyword keywords _ IH Hget Hne Htrim Hnin];
    intros Hc; [exact Hc| |]; specialize (IH Hc); intros c kws Hin;
    apply set_In_inv in Hin as [[= -> ->]|Hin]; try (now apply (IH c kws)).
  - split; constructor.
  - destruct (IH category keywords (get_In _ _ _ Hget)) as [Hnd Hall]. split.
    + apply (Permutation_NoDup (Permutation_cons_append keywords keyword)).
      now constructor.
    + apply Forall_app. split; [exact Hall|]. now repeat constructor.
Qed.

Section Growth.
Context {L : Library}.

(** X8. The Category Store only grows: over any series of runs, from any
    world, the category names the first run started with are still there,
    in the same order, as the head of the names after the last run, and the
    keyword list of each of them is still there as the head of its present
    list. No category and no keyword is ever removed or reordered. *)
Theorem store_only_grows (uis : list UI) (w : World) :
  let before := categories (startup w) in
  let after := categories (startup (runs uis w)) in
  (exists more, keys after = keys before ++ more) /\
  (forall c kws, get c before = Some kws ->
                 exists more, get c after = Some (kws ++ more)).
Proof. cbv zeta. apply evolves_grows, runs_evolves. Qed.

(** X9. Keyword lists stay clean: if, when the first run starts, no keyword
    list of the store has a duplicate and every keyword is trimmed and not
    empty, the same holds after any series of runs. *)
Theorem keywords_stay_clean (uis : list UI) (w : World) :
  keywords_clean (categories (startup w)) ->
  keywords_clean (categories (startup (runs uis w))).
Proof. apply evolves_clean, runs_evolves. Qed.

(** X10. The budget document is written by "Save Budgets" and by a
    successful "Add Category" only: a run in which neither button is pressed
    leaves it as it was, whatever else the user did, changes applied in the
    grid included. *)
Theorem budget_document_untouched (ui : UI) (st : State) :
  add_button ui = false -> save_budgets_button ui = false ->
  budget_file (files (snd (fst (main ui st)))) = budget_file (files st).
Proof.
  intros Ha Hs. unfold main.
  destruct (uploaded_file ui) as [file|]; [|reflexivity].
  destruct (load_transactions (categories st) file) as [[df|] errors];
    [|reflexivity].
  unfold add_category. rewrite Ha, Hs. simpl.
  destruct (budget_inputs_categories (number_input ui) st) as [_ Hf].
  destruct (budget_inputs (number_input ui) st) as [st2 inputs]. simpl in Hf.
  set (edited := map _ (expense_grid _)).
  destruct (apply_button ui); [|simpl; now rewrite Hf].
  pose proof (apply_changes_evolves edited st2 (polarity "Debit" df))
    as [_ [_ [_ H]]].
  destruct (apply_changes edited st2 _) as [[[e|] st4] d]; simpl in *;
    now rewrite H, Hf.
Qed.

(** X11. The Category Store and its document are written by "Add Category"
    and "Apply Changes" only: a run in which neither button is pressed
    leaves both as they were, budget inputs and "Save Budgets" included. *)
Theorem category_store_untouched (ui : UI) (st : State) :
  add_button ui = false -> apply_button ui = false ->
  categories (snd (fst (main ui st))) = categories st /\
  category_file (files (snd (fst (main ui st)))) = category_file (files st).
Proof.
  intros Ha Hp. unfold main.
  destruct (uploaded_file ui) as [file|]; [|now split].
  destruct (load_transactions (categories st) file) as [[df|] errors];
    [|now split].
  unfold add_category. rewrite Ha, Hp. simpl.
  destruct (budget_inputs_categories (number_input ui) st) as [Hc Hf].
  destruct (budget_inputs (number_input ui) st) as [st2 inputs]. simpl in Hc, Hf.
  destruct (save_budgets_button ui); simpl; now rewrite Hc, Hf.
Qed.

End Growth.

(** A session that adds "Food" and teaches it " Coffee Shop" twice keeps the
    keyword lists clean. *)
Lemma keywords_stay_clean_session :
  let uis := [Sample.add Plain.python Sample.one_coffee "Food";
              Sample.move_all Plain.python Sample.one_coffee "Food";
              Sample.move_all Plain.python Sample.one_coffee "Food"] in
  keywords_clean (categories (startup fresh_world)) /\
  keywords_clean (categories (startup (runs uis fresh_world))) /\
  categories (startup (runs uis fresh_world))
  = [(Uncategorized, []); ("Food", ["Coffee Shop"])].
Proof.
  cbv zeta.
  assert (H : keywords_clean (categories (startup fresh_world))).
  { intros c kws [[= <- <-]|[]]. split; constructor. }
  split; [exact H|]. split; [|reflexivity].
  exact (@keywords_stay_clean Plain.python _ fresh_world H).
Defined.

(** A run that applies a change and presses no other button. *)
Lemma budget_document_untouched_apply :
  let st := startup Sample.food_world in
  let applying := Sample.move_all Plain.python Sample.one_coffee Uncategorized in
  add_button applying = false /\ save_budgets_button applying = false /\
  budget_file (files (snd (fst (main applying st)))) = budget_file (files st) /\
  category_file (files (snd (fst (main applying st))))
  = Some [(Uncategorized, ["Coffee Shop"]); ("Food", ["coffee shop"])].
Proof.
  cbv zeta. split; [reflexivity|]. split; [reflexivity|]. split; [|reflexivity].
  exact (@budget_document_untouched Plain.python
           (Sample.move_all Plain.python Sample.one_coffee Uncategorized)
           (startup Sample.food_world) eq_refl eq_refl).
Defined.

(** A run that sets every budget to 25 and saves. *)
Lemma category_store_untouched_save :
  let st := startup Sample.food_world in
  let saving := Session.save_all Plain.python Sample.one_coffee 25%float in
  add_button saving = false /\ apply_button saving = false /\
  categories (snd (fst (main saving st))) = categories st /\
  budget_file (files (snd (fst (main saving st))))
  = Some [("Food", 25%float); (Uncategorized, 25%float)].
Proof.
  cbv zeta. split; [reflexivity|]. split; [reflexivity|]. split; [|reflexivity].
  exact (proj1 (@category_store_untouched Plain.python
                  (Session.save_all Plain.python Sample.one_coffee 25%float)
                  (startup Sample.food_world) eq_refl eq_refl)).
Defined.

(** ** Budgets *)

Lemma get_setdefault {V : Type} (k k' : string) (v : V) (d : dict V) :
  get k' (setdefault k v d)
  = match get k' d with
    | Some x => Some x
    | None => if String.eqb k' k then Some v else None
    end.
Proof.
  unfold setdefault, contains.
  destruct (String.eqb k' k) eqn:E.
  - apply String.eqb_eq in E. subst k'.
    destruct (get k d) eqn:Hg; [exact Hg|]. now rewrite get_set_same.
  - apply String.eqb_neq in E.
    destruct (get k d); [now destruct (get k' d)|].
    rewrite get_set_other by exact E. now destruct (get k' d).
Qed.

Lemma get_setdefaults (ks : list string) (k : string) (b : Budgets) :
  get k (fold_left (fun b cat => setdefault cat 0%float b) ks b)
  = match get k b with
    | Some x => Some x
    | None => if existsb (String.eqb k) ks then Some 0%float else None
    end.
Proof.
  revert b. induction ks as [|c ks IH]; intros b; simpl.
  - now destruct (get k b).
  - rewrite IH, get_setdefault.
    destruct (get k b); [reflexivity|].
    now destruct (String.eqb k c).
Qed.

Lemma setdefaults_covered (ks : list string) (b : Budgets) :
  (forall k, In k ks -> contains k b = true) ->
  fold_left (fun b cat => setdefault cat 0%float b) ks b = b.
Proof.
  revert b. induction ks as [|c ks IH]; intros b H; simpl; [reflexivity|].
  unfold setdefault at 2. rewrite (H c (or_introl eq_refl)).
  apply IH. intros k Hk. apply H. now right.
Qed.

(** X12. After lines 12-29 every category of the store has a budget: the one
    found in the budget document (or, without a document, in the session) if
    there is one, and 0.0 otherwise; the budgets that were found, those of
    names that are no category included, are all kept. *)
Theorem startup_budgets (w : World) :
  let st := startup w in
  (forall cat, In cat (keys (categories st)) ->
               get cat (budgets st)
               = Some (get_default cat 0%float (loaded_budgets w))) /\
  (forall k v, get k (loaded_budgets w) = Some v -> get k (budgets st) = Some v).
Proof.
  cbv zeta.
  assert (E : budgets (startup w)
              = fold_left (fun b cat => setdefault cat 0%float b)
                          (keys (categories (startup w))) (loaded_budgets w)).
  { unfold startup, loaded_budgets. simpl.
    now destruct (budget_file (disk w)), (ss_budgets (session w)). }
  rewrite E. split.
  - intros cat Hin. rewrite get_setdefaults. unfold get_default.
    destruct (get cat (loaded_budgets w)); [reflexivity|].
    assert (H : existsb (String.eqb cat) (keys (categories (startup w))) = true).
    { apply existsb_exists. exists cat. split; [exact Hin|apply String.eqb_refl]. }
    now rewrite H.
  - intros k v H. now rewrite get_setdefaults, H.
Qed.

Section BudgetInputs.
Context {L : Library}.

Lemma budget_inputs_fold (f : string -> float -> float) (ks : list string)
    (so : State * list Widget) :
  NoDup ks ->
  let r := fold_left (budget_input f) ks so in
  (forall k, In k ks ->
             get k (budgets (fst r))
             = Some (f k (get_default k 0%float (budgets (fst so))))) /\
  (forall k, ~ In k ks -> get k (budgets (fst r)) = get k (budgets (fst so))) /\
  snd r = snd so
          ++ map (fun k => st_number_input
                             (k ++ " budget")
                             (get_default k 0%float (budgets (fst so)))) ks.
Proof.
  cbv zeta. revert so. induction ks as [|k0 ks IH]; intros so Hnd; simpl.
  - repeat split; [tauto|now rewrite app_nil_r].
  - inversion Hnd as [|? ? Hk0 Hnd']; subst.
    destruct (IH (budget_input f so k0) Hnd') as [H1 [H2 H3]].
    assert (Hother : forall k, k <> k0 ->
                       get_default k 0%float (budgets (fst (budget_input f so k0)))
                       = get_default k 0%float (budgets (fst so))).
    { intros k Hk. unfold budget_input, get_default. simpl.
      now rewrite get_set_other. }
    repeat split.
    + intros k [<-|Hin].
      * rewrite (H2 k0 Hk0). unfold budget_input. simpl. apply get_set_same.
      * rewrite (H1 k Hin), Hother; [reflexivity|]. intros ->. contradiction.
    + intros k Hk. rewrite H2 by tauto. unfold budget_input. simpl.
      apply get_set_other. intros ->. apply Hk. now left.
    + rewrite H3. unfold budget_input at 1. simpl. rewrite <- app_assoc. simpl.
      f_equal. f_equal. apply map_ext_in. intros k Hin. f_equal.
      apply Hother. intros ->. contradiction.
Qed.

(** X13. After the loop of the budget inputs, the budget of every category
    is what its input returned for the value it was shown, the stored budget
    or 0.0; budgets of other names are untouched, and one input per
    category is drawn, in the order of the store. The category names are
    taken to be distinct, as the keys of a dictionary are. *)
Theorem budget_inputs_values (f : string -> float -> float) (st : State) :
  NoDup (keys (categories st)) ->
  let r := budget_inputs f st in
  (forall cat, In cat (keys (categories st)) ->
               get cat (budgets (fst r))
               = Some (f cat (get_default cat 0%float (budgets st)))) /\
  (forall k, ~ In k (keys (categories st)) ->
             get k (budgets (fst r)) = get k (budgets st)) /\
  snd r = map (fun cat => st_number_input (cat ++ " budget")
                            (get_default cat 0%float (budgets st)))
              (keys (categories st)).
Proof.
  intros Hnd. exact (budget_inputs_fold f _ (st, []) Hnd).
Qed.

Lemma budget_inputs_cover (f : string -> float -> float) (st : State) :
  forall cat, In cat (keys (categories st)) ->
              contains cat (budgets (fst (budget_inputs f st))) = true.
Proof.
  unfold budget_inputs.
  assert (H : forall ks so,
             (forall k, contains k (budgets (fst so)) = true ->
                        contains k (budgets (fst (fold_left (budget_input f) ks so)))
                        = true) /\
             (forall k, In k ks ->
                        contains k (budgets (fst (fold_left (budget_input f) ks so)))
                        = true)).
  { induction ks as [|k0 ks IH]; intros so; simpl; [split; tauto|].
    destruct (IH (budget_input f so k0)) as [H1 H2].
    assert (Hkeep : forall k, contains k (budgets (fst so)) = true ->
                      contains k (budgets (fst (budget_input f so k0))) = true).
    { intros k Hk. unfold budget_input, contains in *. simpl.
      destruct (String.eqb k k0) eqn:E.
      - apply String.eqb_eq in E. subst. now rewrite get_set_same.
      - apply String.eqb_neq in E. now rewrite get_set_other. }
    split.
    - intros k Hk. now apply H1, Hkeep.
    - intros k [<-|Hin]; [|now apply H2].
      apply H1. unfold budget_input, contains. simpl. now rewrite get_set_same. }
  intros cat Hin. now apply (H _ (st, [])).
Qed.

End BudgetInputs.

(** The inputs on the stores of the example, every input answering 25. *)
Lemma budget_inputs_values_food :
  let st := startup Sample.food_world in
  NoDup (keys (categories st)) /\
  budgets st = [("Food", 10%float); (Uncategorized, 0%float)] /\
  budgets (fst (budget_inputs (fun _ _ => 25%float) st))
  = [("Food", 25%float); (Uncategorized, 25%float)] /\
  snd (budget_inputs (fun _ _ => 25%float) st)
  = [st_number_input "Uncategorized budget" 0%float;
     st_number_input "Food budget" 10%float].
Proof.
  cbv zeta.
  assert (H : NoDup (keys (categories (startup Sample.food_world)))).
  { repeat constructor; simpl; intuition discriminate. }
  split; [exact H|]. split; [reflexivity|]. split; [reflexivity|].
  exact (proj2 (proj2 (budget_inputs_values (fun _ _ => 25%float) _ H))).
Defined.

Section SavedBudgets.
Context {L : Library}.

Lemma add_keyword_keys (category keyword : string) (st : State) :
  keys (categories (snd (add_keyword_to_category category keyword st)))
  = keys (categories st).
Proof.
  unfold add_keyword_to_category.
  destruct (Str.truthy (Str.strip keyword)); [|reflexivity].
  destruct (get category (categories st)) as [kws|] eqn:Hg; [|reflexivity].
  destruct (negb (Str.mem (Str.strip keyword) kws)); [|reflexivity].
  simpl. apply keys_set_present. unfold contains. now rewrite Hg.
Qed.

Lemma apply_changes_keys (edited : list (nat * Expense)) (st : State)
    (debits : DataFrame) :
  keys (categories (snd (fst (apply_changes edited st debits))))
  = keys (categories st).
Proof.
  revert st debits. induction edited as [|[idx row] edited IH];
    intros st debits; simpl; [reflexivity|].
  destruct (at_Category idx debits) as [old|]; [|reflexivity].
  destruct (String.eqb (eCategory row) old); [apply IH|].
  pose proof (add_keyword_keys (eCategory row) (eDetails row) st) as Hk.
  destruct (add_keyword_to_category (eCategory row) (eDetails row) st)
    as [[b|e] st1]; simpl in *; [|exact Hk].
  now rewrite IH.
Qed.

Lemma budget_inputs_widgets (f : string -> float -> float) (st : State) (w : Widget) :
  In w (snd (budget_inputs f st)) -> exists label value, w = st_number_input label value.
Proof.
  unfold budget_inputs.
  assert (H : forall ks so,
             (forall w, In w (snd so) ->
                        exists label value, w = st_number_input label value) ->
             forall w, In w (snd (fold_left (budget_input f) ks so)) ->
                       exists label value, w = st_number_input label value).
  { induction ks as [|k ks IH]; intros so Hso w0; simpl; [apply Hso|].
    apply IH. intros w1 Hin. unfold budget_input in Hin. simpl in Hin.
    apply in_app_or in Hin as [Hin|[<-|[]]]; [now apply Hso|].
    now eexists _, _. }
  apply (H _ (st, [])). intros w0 [].
Qed.

Lemma load_transactions_errors (cats : Categories) (file : File)
    (errors : list Widget) :
  load_transactions cats file = (None, errors) -> exists msg, errors = [st_error msg].
Proof.
  unfold load_transactions. destruct (load_body cats file); [discriminate|].
  intros [= <-]. now eexists.
Qed.

Lemma add_category_false (b : bool) (name : string) (st st1 : State) :
  add_category b name st = (st1, false) -> st1 = st.
Proof.
  unfold add_category. destruct (b && Str.truthy name); [|now intros [= <-]].
  destruct (negb (contains name (categories st))); [discriminate|now intros [= <-]].
Qed.

(** When the success message is on the page, the budget document holds the
    Budget Store and every category has a budget. *)
Lemma main_success (ui : UI) (st : State) :
  In (st_success "Budgets saved to budgets.json") (snd (main ui st)) ->
  let st' := snd (fst (main ui st)) in
  budget_file (files st') = Some (budgets st') /\
  (forall cat, In cat (keys (categories st')) -> contains cat (budgets st') = true).
Proof.
  cbv zeta. unfold main.
  destruct (uploaded_file ui) as [file|];
    [|simpl; intuition discriminate].
  destruct (load_transactions (categories st) file) as [[df|] errors] eqn:Hl.
  2:{ apply load_transactions_errors in Hl as [msg ->].
      simpl. intuition discriminate. }
  destruct (add_category (add_button ui) (new_category ui) st) as [st1 [|]] eqn:Ha;
    [simpl; intuition discriminate|].
  apply add_category_false in Ha. subst st1.
  pose proof (budget_inputs_cover (number_input ui) st) as Hcov.
  pose proof (budget_inputs_widgets (number_input ui) st) as Hw.
  destruct (budget_inputs_categories (number_input ui) st) as [Hc _].
  destruct (budget_inputs (number_input ui) st) as [st2 inputs].
  simpl in Hcov, Hw, Hc.
  set (edited := map _ (expense_grid _)).
  assert (Hin : In (st_success "Budgets saved to budgets.json") inputs -> False).
  { intros H. destruct (Hw _ H) as [l [v E]]. discriminate E. }
  destruct (save_budgets_button ui).
  - intros _. destruct (apply_button ui); [|simpl; split; [reflexivity|]].
    + pose proof (apply_changes_evolves edited (save_budgets st2)
                    (polarity "Debit" df)) as [_ [_ [Hb Hf]]].
      pose proof (apply_changes_keys edited (save_budgets st2)
                    (polarity "Debit" df)) as Hk.
      destruct (apply_changes edited (save_budgets st2) _) as [[[e|] st4] d];
        simpl in *; rewrite Hb, Hf, Hk, Hc; now split.
    + now rewrite Hc.
  - destruct (apply_button ui).
    + destruct (apply_changes edited st2 _) as [[[e|] st4] d]; simpl;
        rewrite ?in_app_iff; simpl; intuition discriminate.
    + simpl. rewrite ?in_app_iff. simpl. intuition discriminate.
Qed.

(** X14. Saved budgets come back: whenever a run has shown "Budgets saved to
    budgets.json", the next run starts with exactly the Budget Store the run
    ended with, even if the run went on to apply changes or stopped on an
    exception afterwards. *)
Theorem saved_budgets_round_trip (ui : UI) (w : World) :
  In (st_success "Budgets saved to budgets.json") (snd (run ui w)) ->
  budgets (startup (snd (fst (run ui w))))
  = budgets (snd (fst (main ui (startup w)))).
Proof.
  unfold run. intros Hin.
  destruct (main_evolves ui (startup w)) as [_ Hs].
  specialize (Hs (startup_saved w)).
  pose proof (main_success ui (startup w)) as Hm.
  destruct (main ui (startup w)) as [[o st] out]. simpl in *.
  destruct (Hm Hin) as [Hf Hcov].
  pose proof (startup_world_of st Hs) as Hc.
  unfold startup in *. simpl in *. rewrite Hf, Hc.
  now apply setdefaults_covered.
Qed.

End SavedBudgets.

(** Budgets set to 25 and saved are the budgets of the next run. *)
Lemma saved_budgets_round_trip_food :
  let ui := Session.save_all Plain.python Sample.one_coffee 25%float in
  In (st_success "Budgets saved to budgets.json") (snd (run ui Sample.food_world)) /\
  budgets (startup (snd (fst (run ui Sample.food_world))))
  = [("Food", 25%float); (Uncategorized, 25%float)].
Proof.
  cbv zeta.
  assert (H : In (st_success "Budgets saved to budgets.json")
                 (snd (run (Session.save_all Plain.python Sample.one_coffee 25%float)
                           Sample.food_world))).
  { vm_compute. tauto. }
  split; [exact H|].
  rewrite (saved_budgets_round_trip _ _ H). reflexivity.
Defined.

(** ** The learning loop *)

Section Learning.
Context {L : Library}.

Lemma at_Category_set_same (idx : nat) (c old : string) (df : DataFrame) :
  at_Category idx df = Some old ->
  at_Category idx (at_set_Category idx c df) = Some c.
Proof.
  induction df as [|[i r] df IH]; simpl; [discriminate|].
  destruct (Nat.eqb i idx) eqn:E; simpl; rewrite E; [reflexivity|exact IH].
Qed.

Lemma at_set_columns (idx : nat) (c : string) (df : DataFrame) :
  map other_columns (at_set_Category idx c df) = map other_columns df.
Proof.
  unfold at_set_Category. rewrite map_map. apply map_ext.
  intros [i r]. simpl. now destruct (Nat.eqb i idx).
Qed.


Lemma add_keyword_learnt (category keyword : string) (st st1 : State) (b : bool) :
  add_keyword_to_category category keyword st = (Ok b, st1) ->
  Str.strip keyword <> EmptyString ->
  exists kws, get category (categories st1) = Some kws /\ In (Str.strip keyword) kws.
Proof.
  unfold add_keyword_to_category.
  destruct (Str.strip keyword) as [|a k] eqn:Ek; [intros _ H; now contradiction H|].
  simpl. destruct (get category (categories st)) as [kws|] eqn:Hg; [|discriminate].
  destruct (Str.mem (String a k) kws) eqn:Hm; simpl; intros [= <- <-] _.
  - exists kws. split; [exact Hg|now apply mem_In].
  - exists (kws ++ [String a k]). simpl. split; [apply get_set_same|].
    apply in_or_app. right. now left.
Qed.

(** The loop, when it ends without an exception, on a grid with distinct
    labels. *)
Lemma apply_changes_result (edited : list (nat * Expense)) (st st' : State)
    (debits debits' : DataFrame) :
  NoDup (map fst edited) ->
  apply_changes edited st debits = (None, st', debits') ->
  (forall idx row, In (idx, row) edited ->
                   at_Category idx debits' = Some (eCategory row)) /\
  (forall idx, ~ In idx (map fst edited) ->
               at_Category idx debits' = at_Category idx debits) /\
  map other_columns debits' = map other_columns debits /\
  (forall idx row old,
      In (idx, row) edited -> at_Category idx debits = Some old ->
      eCategory row <> old -> Str.strip (eDetails row) <> EmptyString ->
      exists kws, get (eCategory row) (categories st') = Some kws /\
                  In (Str.strip (eDetails row)) kws).
Proof.
  revert st debits. induction edited as [|[idx row] edited IH];
    intros st debits Hnd; simpl.
  - intros [= <- <-]. repeat split; tauto.
  - inversion Hnd as [|? ? Hidx Hnd']; subst.
    destruct (at_Category idx debits) as [old|] eqn:Hat; [|discriminate].
    destruct (String.eqb (eCategory row) old) eqn:Heq.
    + apply String.eqb_eq in Heq. intros Hr.
      destruct (IH st debits Hnd' Hr) as [H1 [H2 [H3 H4]]].
      repeat split; try assumption.
      * intros i r Hin. destruct Hin as [Hin|Hin]; [|now apply H1].
        injection Hin as <- <-. rewrite (H2 idx Hidx), Hat. now rewrite Heq.
      * intros i Hi. apply H2. intros H. apply Hi. now right.
      * intros i r o Hin Ho Hne Hs. destruct Hin as [Hin|Hin].
        -- injection Hin as <- <-. congruence.
        -- now apply (H4 i r o).
    + pose proof (add_keyword_learnt (eCategory row) (eDetails row) st) as Hl.
      destruct (add_keyword_to_category (eCategory row) (eDetails row) st)
        as [[b|e] st1]; [|discriminate].
      intros Hr.
      destruct (IH st1 _ Hnd' Hr) as [H1 [H2 [H3 H4]]].
      pose proof (apply_changes_evolves edited st1
                    (at_set_Category idx (eCategory row) debits)) as [He _].
      rewrite Hr in He. simpl in He.
      repeat split.
      * intros i r Hin. destruct Hin as [Hin|Hin]; [|now apply H1].
        injection Hin as <- <-.
        rewrite (H2 idx Hidx). now apply (at_Category_set_same _ _ old).
      * intros i Hi. rewrite H2 by (intros H; apply Hi; now right).
        apply at_Category_other. intros ->. apply Hi. now left.
      * now rewrite H3, at_set_columns.
      * intros i r o Hin Ho Hne Hs. destruct Hin as [Hin|Hin].
        -- injection Hin as <- <-.
           destruct (Hl st1 b eq_refl Hs) as [kws [Hg Hk]].
           destruct (proj2 (evolves_grows _ _ He) _ _ Hg) as [more Hm].
           exists (kws ++ more). split; [exact Hm|]. apply in_or_app. now left.
        -- apply (H4 i r o Hin); [|exact Hne|exact Hs].
           rewrite at_Category_other; [exact Ho|].
           intros E. subst i. apply Hidx.
           change idx with (fst (idx, r)). now apply in_map.
Qed.

Lemma edited_labels (f : nat -> Expense -> Expense) (debits : DataFrame) :
  map fst (map (fun ie => (fst ie, f (fst ie) (snd ie))) (expense_grid debits))
  = map fst debits.
Proof. unfold expense_grid. now rewrite !map_map. Qed.

Lemma grid_category (debits : DataFrame) (i : nat) (e : Expense) :
  NoDup (map fst debits) -> In (i, e) (expense_grid debits) ->
  at_Category i debits = Some (eCategory e).
Proof.
  intros Hnd Hin. unfold expense_grid in Hin.
  apply in_map_iff in Hin as [[j r] [[= <- <-] Hin]].
  now apply at_Category_In.
Qed.

(** X15. "Apply Changes": when the loop ends without an exception, the
    session's frame shows, for every row of the grid, the category the user
    left in it, and only the [Category] column has changed. Labels are
    distinct, as [pd.read_csv] makes them. *)
Theorem apply_changes_updates_frame (f : nat -> Expense -> Expense)
    (st st' : State) (debits debits' : DataFrame) :
  NoDup (map fst debits) ->
  apply_changes (map (fun ie => (fst ie, f (fst ie) (snd ie))) (expense_grid debits))
                st debits
  = (None, st', debits') ->
  map other_columns debits' = map other_columns debits /\
  (forall i e, In (i, e) (expense_grid debits) ->
               at_Category i debits' = Some (eCategory (f i e))).
Proof.
  intros Hnd Hr.
  destruct (apply_changes_result _ _ _ _ _
              ltac:(rewrite edited_labels; exact Hnd) Hr) as [H1 [_ [H3 _]]].
  split; [exact H3|]. intros i e Hin. apply H1.
  apply in_map_iff. now exists (i, e).
Qed.

(** X16. "Apply Changes" teaches: when the loop ends without an exception,
    every row whose category the user changed has its trimmed detail text,
    unless that is empty, among the keywords of its new category, in the
    store the loop returns. *)
Theorem apply_changes_learns (f : nat -> Expense -> Expense)
    (st st' : State) (debits debits' : DataFrame) :
  NoDup (map fst debits) ->
  apply_changes (map (fun ie => (fst ie, f (fst ie) (snd ie))) (expense_grid debits))
                st debits
  = (None, st', debits') ->
  forall i e,
    In (i, e) (expense_grid debits) ->
    eCategory (f i e) <> eCategory e ->
    Str.strip (eDetails (f i e)) <> EmptyString ->
    exists kws, get (eCategory (f i e)) (categories st') = Some kws /\
                In (Str.strip (eDetails (f i e))) kws.
Proof.
  intros Hnd Hr i e Hin Hne Hs.
  destruct (apply_changes_result _ _ _ _ _
              ltac:(rewrite edited_labels; exact Hnd) Hr) as [_ [_ [_ H4]]].
  apply (H4 i (f i e) (eCategory e)); try assumption.
  - apply in_map_iff. now exists (i, e).
  - now apply grid_category.
Qed.

(** X17. "Apply Changes" on a grid the user has not edited does nothing: no
    keyword is learnt, no document is written, the frame is unchanged. *)
Theorem apply_changes_unedited (st : State) (debits : DataFrame) :
  NoDup (map fst debits) ->
  apply_changes (expense_grid debits) st debits = (None, st, debits).
Proof.
  intros Hnd.
  assert (H : forall grid,
             incl grid (expense_grid debits) ->
             apply_changes grid st debits = (None, st, debits)).
  { induction grid as [|[i e] grid IH]; intros Hincl; simpl; [reflexivity|].
    rewrite (grid_category debits i e Hnd (Hincl _ (or_introl eq_refl))).
    rewrite String.eqb_refl. apply IH.
    intros x Hx. apply Hincl. now right. }
  apply H, incl_refl.
Qed.





End Learning.

(** The coffee row is moved to "Food". *)
Lemma apply_changes_updates_frame_coffee :
  let debits := RangeIndex [Session.coffee] in
  let r := apply_changes
             (map (fun ie => (fst ie, Session.to_category "Food" (fst ie) (snd ie)))
                  (expense_grid debits))
             Session.empty_food debits in
  NoDup (map fst debits) /\
  fst (fst r) = None /\
  at_Category 0 (snd r) = Some "Food".
Proof.
  cbv zeta.
  assert (Hnd : NoDup (map fst (RangeIndex [Session.coffee])))
    by apply RangeIndex_unique.
  split; [exact Hnd|]. split; [reflexivity|].
  apply (proj2 (apply_changes_updates_frame
                  (Session.to_category "Food") Session.empty_food _
                  (RangeIndex [Session.coffee]) _ Hnd eq_refl) 0
               {| eDate := {| year := 2024; month := 1; day := 1 |};
                  eDetails := "Coffee Shop"; eAmount := 4.5%float;
                  eCategory := Uncategorized |}).
  now left.
Defined.

(** Moving the coffee row to "Food" teaches "Food" its detail. *)
Lemma apply_changes_learns_coffee :
  let debits := RangeIndex [Session.coffee] in
  let r := apply_changes
             (map (fun ie => (fst ie, Session.to_category "Food" (fst ie) (snd ie)))
                  (expense_grid debits))
             Session.empty_food debits in
  NoDup (map fst debits) /\
  fst (fst r) = None /\
  exists kws, get "Food" (categories (snd (fst r))) = Some kws /\
              In "Coffee Shop" kws.
Proof.
  cbv zeta.
  assert (Hnd : NoDup (map fst (RangeIndex [Session.coffee])))
    by apply RangeIndex_unique.
  split; [exact Hnd|]. split; [reflexivity|].
  apply (apply_changes_learns
           (Session.to_category "Food") Session.empty_food _
           (RangeIndex [Session.coffee]) _ Hnd eq_refl 0
           {| eDate := {| year := 2024; month := 1; day := 1 |};
              eDetails := "Coffee Shop"; eAmount := 4.5%float;
              eCategory := Uncategorized |}).
  - now left.
  - discriminate.
  - discriminate.
Defined.

(** The unedited grid of the coffee row. *)
Lemma apply_changes_unedited_coffee :
  NoDup (map fst (RangeIndex [Session.coffee])) /\
  apply_changes (expense_grid (RangeIndex [Session.coffee]))
    Session.empty_food (RangeIndex [Session.coffee])
  = (None, Session.empty_food, RangeIndex [Session.coffee]).
Proof.
  split; [apply RangeIndex_unique|].
  apply apply_changes_unedited. apply RangeIndex_unique.
Defined.


(** ** The loader, further *)

Section LoaderShape.
Context {L : Library}.

Lemma map_result_length {A B : Type} (f : A -> result B) (xs : list A) (ys : list B) :
  map_result f xs = Ok ys -> List.length ys = List.length xs.
Proof.
  revert ys. induction xs as [|x xs IH]; simpl; intros ys.
  - now intros [= <-].
  - destruct (f x); simpl; [|discriminate].
    destruct (map_result f xs) as [zs|]; simpl; [|discriminate].
    intros [= <-]. simpl. f_equal. now apply IH.
Qed.

Lemma make_rows_columns (raw : RawFrame) (xs : list float) (ds : list datetime) :
  List.length xs = List.length raw -> List.length ds = List.length raw ->
  List.length (make_rows raw xs ds) = List.length raw /\
  map Details (make_rows raw xs ds) = map raw_Details raw /\
  map DebitCredit (make_rows raw xs ds) = map raw_DebitCredit raw /\
  map Amount (make_rows raw xs ds) = xs /\
  map Date (make_rows raw xs ds) = ds.
Proof.
  revert xs ds. induction raw as [|r raw IH]; intros [|x xs] [|d ds] Hx Hd;
    simpl in *; try discriminate; [now repeat split|].
  destruct (IH xs ds) as [H1 [H2 [H3 [H4 H5]]]]; [lia|lia|].
  repeat split; congruence.
Qed.

Lemma coerce_amounts_length (raw : RawFrame) (xs : list float) :
  coerce_amounts raw = Ok xs -> List.length xs = List.length raw.
Proof.
  unfold coerce_amounts. destruct (str_accessor (map raw_Amount raw)); simpl;
    [|discriminate].
  intros H. apply map_result_length in H. now rewrite !length_map in H.
Qed.

(** X19. A load is all or nothing: when [load_transactions] returns a frame,
    it shows no error, and the frame has one row for every record that
    [pd.read_csv] delivered, in the same order, labelled 0, 1, 2, ..., with
    the detail text and the debit/credit flag as read and the amount and the
    date as coerced by lines 62 and 63. *)
Theorem load_transactions_rows (cats : Categories) (file : File) (df : DataFrame)
    (out : list Widget) :
  load_transactions cats file = (Some df, out) ->
  out = [] /\
  exists raw,
    read_csv file = Ok raw /\
    map fst df = seq 0 (List.length raw) /\
    map (fun ir => Details (snd ir)) df = map raw_Details raw /\
    map (fun ir => DebitCredit (snd ir)) df = map raw_DebitCredit raw /\
    coerce_amounts raw = Ok (amounts df) /\
    coerce_dates raw = Ok (map (fun ir => Date (snd ir)) df).
Proof.
  unfold load_transactions, load_body.
  destruct (read_csv file) as [raw|e]; simpl; [|discriminate].
  destruct (coerce_amounts raw) as [xs|e] eqn:Hx; simpl; [|discriminate].
  destruct (coerce_dates raw) as [ds|e] eqn:Hd; simpl; [|discriminate].
  intros [= <- <-]. split; [reflexivity|]. exists raw. split; [reflexivity|].
  rewrite categorize_transactions_rows by apply RangeIndex_unique.
  destruct (make_rows_columns raw xs ds) as [H1 [H2 [H3 [H4 H5]]]].
  { now apply coerce_amounts_length. }
  { unfold coerce_dates in Hd. apply map_result_length in Hd.
    now rewrite length_map in Hd. }
  assert (Hsnd : forall (A : Type) (g : Row -> A),
             map (fun ir => g (snd ir)) (RangeIndex (make_rows raw xs ds))
             = map g (make_rows raw xs ds)).
  { intros A g. rewrite <- (map_map snd g). f_equal.
    unfold RangeIndex. apply map_snd_combine. apply length_seq. }
  unfold amounts. rewrite !map_map. simpl.
  rewrite (Hsnd _ Details), (Hsnd _ DebitCredit), (Hsnd _ Amount), (Hsnd _ Date).
  rewrite H2, H3, H4, H5.
  repeat split; try assumption.
  change (fun x : nat * Row => fst x) with (@fst nat Row).
  now rewrite RangeIndex_labels, H1.
Qed.

End LoaderShape.

(** The file with a separator loads, with the three rows it holds. *)
Lemma load_transactions_rows_example :
  let file := Sample.coffee_and_salary_with_separator in
  let df := match fst (@load_transactions Plain.python
                         (categories (startup Sample.food_world)) file) with
            | Some df => df
            | None => []
            end in
  map fst df = [0; 1; 2] /\
  (@nil Widget = [] /\
   exists raw,
     @read_csv Plain.python file = Ok raw /\
     map fst df = seq 0 (List.length raw) /\
     map (fun ir => Details (snd ir)) df = map raw_Details raw /\
     map (fun ir => DebitCredit (snd ir)) df = map raw_DebitCredit raw /\
     @coerce_amounts Plain.python raw = Ok (amounts df) /\
     @coerce_dates Plain.python raw = Ok (map (fun ir => Date (snd ir)) df)).
Proof.
  cbv zeta. split; [reflexivity|].
  apply (@load_transactions_rows Plain.python
           (categories (startup Sample.food_world))
           Sample.coffee_and_salary_with_separator).
  reflexivity.
Defined.

(** ** The aggregator, further *)

Lemma string_compare_refl (a : string) : String.compare a a = Eq.
Proof.
  pose proof (String.compare_antisym a a) as H.
  destruct (String.compare a a); simpl in H; congruence.
Qed.

Lemma get_below_sorted {V : Type} (k : string) (groups : list (string * V)) :
  Forall (precedes k) (map fst groups) -> get k groups = None.
Proof.
  induction groups as [|[k0 v] groups IH]; simpl; [reflexivity|].
  intros H. inversion H as [|? ? Hk Hrest]; subst.
  destruct (String.eqb k k0) eqn:E; [|now apply IH].
  apply String.eqb_eq in E. subst. now apply precedes_irrefl in Hk.
Qed.

Lemma group_insert_get (k k' : string) (x : float)
    (groups : list (string * list float)) :
  StronglySorted precedes (map fst groups) ->
  get k' (group_insert k x groups)
  = if String.eqb k' k
    then Some (match get k groups with Some xs => xs ++ [x] | None => [x] end)
    else get k' groups.
Proof.
  induction groups as [|[k0 xs] groups IH]; simpl; intros Hs.
  - now destruct (String.eqb k' k).
  - inversion Hs as [|? ? Hs' Hk]; subst.
    destruct (String.compare k k0) eqn:E; simpl.
    + apply String.compare_eq_iff in E. subst k0. rewrite String.eqb_refl.
      now destruct (String.eqb k' k).
    + assert (Hn : String.eqb k k0 = false).
      { apply String.eqb_neq. intros ->. now rewrite string_compare_refl in E. }
      rewrite Hn.
      assert (Hg : get k groups = None).
      { apply get_below_sorted. eapply Forall_impl; [|exact Hk].
        intros a. now apply precedes_trans. }
      rewrite Hg. now destruct (String.eqb k' k).
    + assert (Hn : String.eqb k k0 = false).
      { apply String.eqb_neq. intros ->. now rewrite string_compare_refl in E. }
      rewrite Hn, (IH Hs').
      destruct (String.eqb k' k) eqn:Ek; [|reflexivity].
      apply String.eqb_eq in Ek. subst k'. now rewrite Hn.
Qed.

Lemma groupby_snoc (df : DataFrame) (ir : nat * Row) :
  groupby_Category (df ++ [ir])
  = group_insert (Category (snd ir)) (Amount (snd ir)) (groupby_Category df).
Proof. unfold groupby_Category. now rewrite fold_left_app. Qed.

Lemma groupby_sorted_keys (df : DataFrame) :
  StronglySorted precedes (map fst (groupby_Category df)).
Proof.
  induction df as [|ir df IH] using rev_ind; [constructor|].
  rewrite groupby_snoc.
  assert (H : forall k x (groups : list (string * list float)),
             StronglySorted precedes (map fst groups) ->
             StronglySorted precedes (map fst (group_insert k x groups))).
  { intros k x groups. induction groups as [|[k0 xs] groups IHg]; simpl; intros Hs.
    - repeat constructor.
    - inversion Hs as [|? ? Hs' Hk]; subst.
      destruct (String.compare k k0) eqn:E; simpl.
      + now constructor.
      + constructor; [exact Hs|]. constructor; [exact E|].
        eapply Forall_impl; [|exact Hk]. intros a. now apply precedes_trans.
      + constructor; [now apply IHg|].
        apply Forall_forall. intros a Ha.
        assert (Hin : a = k \/ In a (map fst groups)).
        { clear -Ha. induction groups as [|[k1 ys] groups IHk]; simpl in *.
          - destruct Ha as [Ha|[]]. now left.
          - destruct (String.compare k k1); simpl in Ha.
            + now right.
            + destruct Ha as [Ha|Ha]; [now left|now right].
            + destruct Ha as [Ha|Ha]; [now right; left|].
              destruct (IHk Ha); [now left|now right; right]. }
        destruct Hin as [->|Hin].
        * unfold precedes. now rewrite String.compare_antisym, E.
        * rewrite Forall_forall in Hk. now apply Hk. }
  now apply H.
Qed.

(** The group of a category holds the amounts of its rows, in row order; a
    category without a row has no group. *)
Lemma groupby_get (df : DataFrame) (c : string) :
  get c (groupby_Category df)
  = match rows_of c df with
    | [] => None
    | rows => Some (amounts rows)
    end.
Proof.
  induction df as [|ir df IH] using rev_ind; [reflexivity|].
  rewrite groupby_snoc, group_insert_get by apply groupby_sorted_keys.
  unfold rows_of in *. rewrite filter_app. simpl.
  rewrite (String.eqb_sym c).
  destruct (String.eqb (Category (snd ir)) c) eqn:E.
  - apply String.eqb_eq in E. subst c. rewrite IH.
    destruct (filter _ df) as [|r rows]; simpl; [reflexivity|].
    unfold amounts. now rewrite map_app.
  - rewrite app_nil_r. exact IH.
Qed.

Lemma In_get_unique {V : Type} (k : string) (v : V) (d : dict V) :
  NoDup (map fst d) -> In (k, v) d -> get k d = Some v.
Proof.
  induction d as [|[k0 v0] d IH]; simpl; [tauto|].
  intros Hnd [H|H]; inversion Hnd as [|? ? Hk Hnd']; subst.
  - injection H as -> ->. now rewrite String.eqb_refl.
  - destruct (String.eqb k k0) eqn:E; [|now apply IH].
    apply String.eqb_eq in E. subst. exfalso. apply Hk.
    change k0 with (fst (k0, v)). now apply in_map.
Qed.

Section Totals.
Context {L : Library}.

Lemma totals_groups (b : Budgets) (debits_df : DataFrame) (c : string) (a : float) :
  (exists t, In t (category_totals b debits_df) /\ tCategory t = c /\ tAmount t = a)
  <-> exists xs, get c (groupby_Category debits_df) = Some xs /\ a = group_sum xs.
Proof.
  assert (Hp : forall ca, In ca (sort_values_desc (grouped_sums debits_df))
                          <-> In ca (grouped_sums debits_df)).
  { intros ca. split; apply Permutation_in;
      [|symmetry]; apply sort_values_desc_perm. }
  unfold category_totals. split.
  - intros [t [Hin [<- <-]]]. apply in_map_iff in Hin as [[c a] [<- Hin]].
    apply Hp in Hin. unfold grouped_sums in Hin.
    apply in_map_iff in Hin as [[k xs] [[= <- <-] Hin]].
    exists xs. split; [|reflexivity].
    apply In_get_unique; [|exact Hin].
    apply sorted_keys_unique, groupby_sorted_keys.
  - intros [xs [Hg ->]]. apply get_In in Hg.
    exists (totals_row b (c, group_sum xs)). split; [|now split].
    apply in_map, Hp. unfold grouped_sums.
    apply in_map_iff. now exists (c, xs).
Qed.

(** X20. Every row of the totals table stands for a category that has at
    least one debit row, and its amount is the sum, by the library's grouped
    sum, of the amounts of exactly the debit rows of that category, taken in
    row order; no category has two rows. *)
Theorem totals_sum_their_category (b : Budgets) (debits_df : DataFrame) :
  NoDup (map tCategory (category_totals b debits_df)) /\
  Forall
    (fun t =>
       rows_of (tCategory t) debits_df <> [] /\
       tAmount t = group_sum (amounts (rows_of (tCategory t) debits_df)))
    (category_totals b debits_df).
Proof.
  split.
  - assert (E : map tCategory (category_totals b debits_df)
                = map fst (sort_values_desc (grouped_sums debits_df))).
    { unfold category_totals. rewrite map_map. now apply map_ext. }
    rewrite E.
    apply (Permutation_NoDup
             (l := map fst (grouped_sums debits_df))).
    + apply Permutation_map. symmetry. apply sort_values_desc_perm.
    + unfold grouped_sums. rewrite map_map. simpl.
      apply sorted_keys_unique, groupby_sorted_keys.
  - apply Forall_forall. intros t Hin.
    destruct (proj1 (totals_groups b debits_df (tCategory t) (tAmount t)))
      as [xs [Hg Ha]]; [now exists t|].
    rewrite groupby_get in Hg.
    destruct (rows_of (tCategory t) debits_df) as [|r rows]; [discriminate|].
    injection Hg as <-. split; [discriminate|exact Ha].
Qed.

(** X21. No zero-fill and no omission: a category has a row in the totals
    table exactly when at least one debit row is in it; a category with a
    budget but no expense is absent. *)
Theorem totals_have_row_iff (b : Budgets) (debits_df : DataFrame) (c : string) :
  In c (map tCategory (category_totals b debits_df))
  <-> exists ir, In ir debits_df /\ Category (snd ir) = c.
Proof.
  split.
  - intros Hin. apply in_map_iff in Hin as [t [<- Hin]].
    destruct (proj1 (totals_groups b debits_df (tCategory t) (tAmount t)))
      as [xs [Hg _]]; [now exists t|].
    rewrite groupby_get in Hg.
    destruct (rows_of (tCategory t) debits_df) as [|r rows] eqn:E; [discriminate|].
    exists r. assert (Hr : In r (rows_of (tCategory t) debits_df))
      by (rewrite E; now left).
    unfold rows_of in Hr. apply filter_In in Hr as [Hr Hc].
    split; [exact Hr|now apply String.eqb_eq].
  - intros [ir [Hin Hc]].
    assert (Hr : In ir (rows_of c debits_df)).
    { unfold rows_of. apply filter_In. split; [exact Hin|].
      now apply String.eqb_eq. }
    destruct (proj2 (totals_groups b debits_df c
                       (group_sum (amounts (rows_of c debits_df)))))
      as [t [Ht [Hc' _]]].
    + exists (amounts (rows_of c debits_df)). split; [|reflexivity].
      rewrite groupby_get. now destruct (rows_of c debits_df).
    + apply in_map_iff. now exists t.
Qed.

End Totals.

(** ** The order of the totals table *)

Ltac order_cases :=
  repeat match goal with
  | H : context [Z.compare ?x ?y] |- _ => destruct (Z.compare_spec x y)
  | |- context [Z.compare ?x ?y] => destruct (Z.compare_spec x y)
  | H : context [PosDef.Pos.compare_cont Eq ?x ?y] |- _ =>
      change (PosDef.Pos.compare_cont Eq x y) with (Pos.compare x y) in *;
      destruct (Pos.compare_spec x y)
  | |- context [PosDef.Pos.compare_cont Eq ?x ?y] =>
      change (PosDef.Pos.compare_cont Eq x y) with (Pos.compare x y) in *;
      destruct (Pos.compare_spec x y)
  end.

Lemma SFleb_trans (a b c : spec_float) :
  SFleb a b = true -> SFleb b c = true -> SFleb a c = true.
Proof.
  unfold SFleb, SFcompare.
  destruct a as [sa|sa| |sa ma ea], b as [sb|sb| |sb mb eb],
           c as [sc|sc| |sc mc ec];
    try destruct sa; try destruct sb; try destruct sc; simpl;
    try congruence; intros H1 H2; order_cases; simpl in *;
    try congruence; try lia.
Qed.

Lemma SFltb_SFleb (a b : spec_float) : SFltb a b = true -> SFleb a b = true.
Proof. unfold SFltb, SFleb. now destruct (SFcompare a b) as [[]|]. Qed.

Lemma SFleb_total (a b : spec_float) :
  a <> S754_nan -> b <> S754_nan -> SFltb a b = false -> SFleb b a = true.
Proof.
  unfold SFleb, SFltb, SFcompare.
  destruct a as [sa|sa| |sa ma ea], b as [sb|sb| |sb mb eb];
    try destruct sa; try destruct sb; simpl;
    try congruence; intros H1 H2 H3; order_cases; simpl in *;
    try congruence; try lia.
Qed.

Lemma not_nan_spec (x : float) : PrimFloat.is_nan x = false -> Prim2SF x <> S754_nan.
Proof.
  unfold PrimFloat.is_nan. rewrite FloatAxioms.eqb_spec. intros H E.
  rewrite E in H. discriminate.
Qed.

Lemma at_least_trans (x y z : float) : at_least x y -> at_least y z -> at_least x z.
Proof.
  unfold at_least. rewrite !leb_spec. intros H1 H2. eapply SFleb_trans; eassumption.
Qed.

Lemma at_least_above (x y : float) : PrimFloat.ltb y x = true -> at_least x y.
Proof. unfold at_least. rewrite ltb_spec, leb_spec. apply SFltb_SFleb. Qed.

Lemma at_least_otherwise (x y : float) :
  PrimFloat.is_nan x = false -> PrimFloat.is_nan y = false ->
  PrimFloat.ltb y x = false -> at_least y x.
Proof.
  unfold at_least. rewrite ltb_spec, leb_spec. intros Hx Hy.
  apply SFleb_total; now apply not_nan_spec.
Qed.

Lemma insert_desc_sorted (x : string * float) (l : list (string * float)) :
  Forall (fun p => PrimFloat.is_nan (snd p) = false) (x :: l) ->
  StronglySorted (fun p q => at_least (snd p) (snd q)) l ->
  StronglySorted (fun p q => at_least (snd p) (snd q)) (insert_desc x l).
Proof.
  induction l as [|y l IH]; simpl; intros Hn Hs.
  - repeat constructor.
  - inversion Hn as [|? ? Hx Hn']; subst. inversion Hn' as [|? ? Hy Hl]; subst.
    inversion Hs as [|? ? Hs' Hall]; subst.
    destruct (PrimFloat.ltb (snd y) (snd x)) eqn:E.
    + constructor; [exact Hs|]. constructor; [now apply at_least_above|].
      eapply Forall_impl; [|exact Hall]. intros q Hq.
      eapply at_least_trans; [|exact Hq]. now apply at_least_above.
    + constructor.
      * apply IH; [now constructor|exact Hs'].
      * eapply Permutation_Forall; [symmetry; apply insert_desc_perm|].
        constructor; [now apply at_least_otherwise|exact Hall].
Qed.

Lemma sort_values_desc_sorted (l : list (string * float)) :
  Forall (fun p => PrimFloat.is_nan (snd p) = false) l ->
  StronglySorted (fun p q => at_least (snd p) (snd q)) (sort_values_desc l).
Proof.
  unfold sort_values_desc.
  assert (H : forall l acc,
             Forall (fun p => PrimFloat.is_nan (snd p) = false) l ->
             Forall (fun p => PrimFloat.is_nan (snd p) = false) acc ->
             StronglySorted (fun p q => at_least (snd p) (snd q)) acc ->
             StronglySorted (fun p q => at_least (snd p) (snd q))
               (fold_left (fun acc x => insert_desc x acc) l acc)).
  { clear l. induction l as [|x l IH]; simpl; intros acc Hl Hacc Hs; [exact Hs|].
    inversion Hl as [|? ? Hx Hl']; subst. apply IH; [exact Hl'| |].
    - eapply Permutation_Forall; [symmetry; apply insert_desc_perm|].
      now constructor.
    - apply insert_desc_sorted; [now constructor|exact Hs]. }
  intros Hl. apply H; [exact Hl|constructor|constructor].
Qed.

Lemma StronglySorted_map {A B : Type} (f : A -> B) (R : B -> B -> Prop) (l : list A) :
  StronglySorted (fun a b => R (f a) (f b)) l -> StronglySorted R (map f l).
Proof.
  induction 1 as [|a l Hs IH Hall]; simpl; constructor; [exact IH|].
  apply Forall_map. exact Hall.
Qed.

Section TotalsOrder.
Context {L : Library}.

(** X22. The totals table is in descending order of amount: when no total
    is NaN, every row's amount is at least the amount of every row below
    it. *)
Theorem totals_descending (b : Budgets) (debits_df : DataFrame) :
  Forall (fun t => PrimFloat.is_nan (tAmount t) = false)
         (category_totals b debits_df) ->
  StronglySorted (fun t u => at_least (tAmount t) (tAmount u))
                 (category_totals b debits_df).
Proof.
  unfold category_totals. intros Hn.
  apply StronglySorted_map.
  apply (sort_values_desc_sorted (grouped_sums debits_df)).
  eapply Permutation_Forall; [apply sort_values_desc_perm|].
  rewrite Forall_map in Hn. exact Hn.
Qed.

End TotalsOrder.

(** Three categories whose totals come out as 6.5, 3.25 and 1. *)
Lemma totals_descending_example :
  let debits_df := RangeIndex [Sample.debit "B" 3.25; Sample.debit "C" 1;
                               Sample.debit "A" 4.5; Sample.debit "A" 2] in
  map (fun t => (tCategory t, tAmount t))
      (@category_totals Plain.python [] debits_df)
  = [("A", 6.5%float); ("B", 3.25%float); ("C", 1%float)] /\
  StronglySorted (fun t u => at_least (tAmount t) (tAmount u))
                 (@category_totals Plain.python [] debits_df).
Proof.
  cbv zeta. split; [reflexivity|].
  apply (@totals_descending Plain.python []).
  vm_compute. repeat constructor.
Defined.


(** In backup.py, "Food" is added to the default store and written out. *)
Lemma backup_add_category_contract_food :
  let st := {| Backup.categories := [(Uncategorized, [])];
               Backup.category_file := None |} in
  Backup.add_category true "Food" st
  = ({| Backup.categories := [(Uncategorized, []); ("Food", [])];
        Backup.category_file := Some [(Uncategorized, []); ("Food", [])] |},
     true).
Proof.
  cbv zeta.
  apply (proj2 (backup_add_category_contract "Food"
                  {| Backup.categories := [(Uncategorized, [])];
                     Backup.category_file := None |})).
  - discriminate.
  - reflexivity.
Defined.
